(** * SNOUTIQ RAG core ([rag_system.py]): a shallow embedding and its properties

    The retrieval pipeline of [SnoutiqRAG] is embedded as pure functions over
    an explicit system state:

    - a Python [str] is the [string] of its UTF-8 bytes: substring search,
      replacement and concatenation read the same on the bytes as on the
      characters; [len] counts the characters, white space is the white
      space of [str.isspace], and [str.lower], which follows the Unicode
      case tables of the interpreter, is a parameter [lower] of every
      function that calls it;
    - JSON-decoded Python objects are the inductive [value]; a Python [dict]
      is an insertion-ordered association list, read by first match and
      updated in place;
    - similarity scores are rationals [Q]: the float arithmetic of the source
      ([score < 0.3], [float(score) * boost]) is read as exact arithmetic;
    - a call that can raise returns [result]: [Ok v] or [Raise e];
    - the embedding model, the clock, the file system and the generative
      model are parameters; the FAISS flat inner-product index is modelled by
      its contract (exhaustive inner-product search, best score first). *)

From Stdlib Require Import String Ascii List Bool Arith ZArith QArith Lia.
From Stdlib Require Import Sorted.
Import ListNotations.

#[local] Set Warnings "-register-all".

Local Open Scope string_scope.
Local Open Scope list_scope.

(** ** Python strings *)

Module PyStr.

(** [c.lower()] on one ASCII character. *)
Definition lower_ascii (c : ascii) : ascii :=
  let n := nat_of_ascii c in
  if (65 <=? n)%nat && (n <=? 90)%nat then ascii_of_nat (n + 32) else c.

(** [s.lower()] on a text of ASCII characters only. On other texts
    [str.lower] follows the Unicode case tables of the interpreter: the
    functions below take it as a parameter [lower], and the concrete runs,
    all of them on ASCII text, give them this one. *)
Fixpoint ascii_lower (s : string) : string :=
  match s with
  | EmptyString => EmptyString
  | String c r => String (lower_ascii c) (ascii_lower r)
  end.

(** Every character of [s] is an ASCII one. *)
Fixpoint is_ascii (s : string) : bool :=
  match s with
  | EmptyString => true
  | String c r => (nat_of_ascii c <? 128)%nat && is_ascii r
  end.

(** A byte from 0x80 to 0xBF continues the character begun before it. *)
Definition continues (c : ascii) : bool :=
  let n := nat_of_ascii c in (128 <=? n)%nat && (n <=? 191)%nat.

(** [len(s)]: the characters of [s], each counted at the byte it starts
    with. *)
Fixpoint len (s : string) : nat :=
  match s with
  | EmptyString => O
  | String c r => if continues c then len r else S (len r)
  end.

(** [list(s)]: the characters of [s], each the text of its bytes. *)
Fixpoint chars (s : string) : list string :=
  match s with
  | EmptyString => []
  | String c r =>
      match chars r with
      | x :: rest =>
          if match r with String b _ => continues b | EmptyString => false end
          then String c x :: rest
          else String c EmptyString :: x :: rest
      | [] => [String c EmptyString]
      end
  end.

(** [t in s]: [t] occurs in [s] as a substring. *)
Fixpoint contains (t s : string) : bool :=
  prefix t s ||
  match s with
  | EmptyString => false
  | String _ r => contains t r
  end.

(** [s.replace(old, new)] for a non-empty [old]: the occurrences of [old]
    are replaced from left to right, without overlap. [skip] counts the
    characters of a matched occurrence still to be dropped. *)
Fixpoint replace_from (old new s : string) (skip : nat) : string :=
  match s with
  | EmptyString => EmptyString
  | String c r =>
      match skip with
      | S k => replace_from old new r k
      | O =>
          if prefix old s
          then new ++ replace_from old new r (String.length old - 1)
          else String c (replace_from old new r 0)
      end
  end.

(** With an empty [old], Python inserts [new] before every character and at
    the end. *)
Fixpoint intersperse (new s : string) : string :=
  match s with
  | EmptyString => new
  | String c r => new ++ String c (intersperse new r)
  end.

Definition replace (s old new : string) : string :=
  match old with
  | EmptyString => intersperse new s
  | _ => replace_from old new s 0
  end.

(** [sep.join(l)] *)
Definition join (sep : string) (l : list string) : string :=
  String.concat sep l.

(** [s.split(sep)[-1]] for a one-character separator: what follows the last
    separator, or all of [s] when there is none. *)
Fixpoint after_last (sep : ascii) (s : string) : string :=
  match s with
  | EmptyString => EmptyString
  | String c r =>
      if Ascii.eqb c sep then after_last sep r
      else if contains (String sep EmptyString) r then after_last sep r
      else s
  end.

(** The white space of [str.isspace] and [str.strip]: U+0009 to U+000D,
    U+001C to U+0020, U+0085, U+00A0, U+1680, U+2000 to U+200A, U+2028,
    U+2029, U+202F, U+205F and U+3000. [space_width s] is the number of
    bytes of the white-space character [s] starts with, and 0 when it starts
    with none. *)
Definition space_width (s : string) : nat :=
  match s with
  | EmptyString => O
  | String a r =>
      let x := nat_of_ascii a in
      if ((9 <=? x) && (x <=? 13)) || ((28 <=? x) && (x <=? 32)) then 1
      else
        match r with
        | EmptyString => O
        | String b r' =>
            let y := nat_of_ascii b in
            if (x =? 194) && ((y =? 133) || (y =? 160)) then 2
            else
              match r' with
              | EmptyString => O
              | String c _ =>
                  let z := nat_of_ascii c in
                  if ((x =? 225) && (y =? 154) && (z =? 128))
                     || ((x =? 226) && (y =? 128) &&
                         (((128 <=? z) && (z <=? 138))
                          || (z =? 168) || (z =? 169) || (z =? 175)))
                     || ((x =? 226) && (y =? 129) && (z =? 159))
                     || ((x =? 227) && (y =? 128) && (z =? 128))
                  then 3
                  else O
              end
        end
  end%nat.

(** Every character of [s] is white space: [s] is empty, or [s.isspace()]
    holds. [skip] counts the bytes of a white-space character still to be
    passed over. *)
Fixpoint white_from (s : string) (skip : nat) : bool :=
  match s with
  | EmptyString => true
  | String _ r =>
      match skip with
      | S k => white_from r k
      | O =>
          match space_width s with
          | O => false
          | S k => white_from r k
          end
      end
  end.

Definition white (s : string) : bool := white_from s 0.

(** A visible ASCII character; no byte of a white-space character is one. *)
Definition visible (c : ascii) : bool :=
  let n := nat_of_ascii c in (33 <=? n)%nat && (n <=? 126)%nat.

(** A text of visible ASCII characters. *)
Fixpoint all_visible (t : string) : bool :=
  match t with
  | EmptyString => true
  | String c r => visible c && all_visible r
  end.

End PyStr.

(** ** Configuration *)

Definition TOP_K : Z := 10.
Definition MIN_SIMILARITY : Q := 3 # 10.

(** Medical synonyms for query expansion, in the order of the source table. *)
Definition MEDICAL_SYNONYMS : list (string * list string) :=
  [ ("vomit",    ["vomiting"; "throwing up"; "emesis"]);
    ("diarrhea", ["loose stool"; "loose motion"; "watery stool"]);
    ("pee",      ["urinate"; "urine"; "urination"]);
    ("poop",     ["stool"; "feces"; "defecate"]);
    ("cough",    ["coughing"; "hacking"]);
    ("scratch",  ["scratching"; "itching"; "itchy"]);
    ("limp",     ["limping"; "lame"; "not walking"]);
    ("breath",   ["breathing"; "respiratory"; "panting"]);
    ("eat",      ["eating"; "appetite"; "food"]);
    ("blood",    ["bleeding"; "bloody"]) ].

Definition EMERGENCY_KEYWORDS : list string :=
  [ "bleeding"; "blood"; "seizure"; "unconscious"; "not breathing";
    "collapsed"; "severe pain"; "bloat"; "poisoning"; "trauma";
    "snake bite"; "broken bone"; "can't stand"; "blue gums" ].

(** ** Query expansion and emergency detection *)

(** The inner loop of [expand_query]: one variant for each of the given
    synonyms that does not occur in the lower-cased query. *)
Fixpoint expand_syns (query_lower term : string) (syns : list string)
                     (expanded : list string) : list string :=
  match syns with
  | [] => expanded
  | syn :: rest =>
      expand_syns query_lower term rest
        (if PyStr.contains syn query_lower then expanded
         else expanded ++ [PyStr.replace query_lower term syn])
  end.

(** The outer loop of [expand_query] over the synonym table. *)
Fixpoint expand_terms (query_lower : string)
                      (table : list (string * list string))
                      (expanded : list string) : list string :=
  match table with
  | [] => expanded
  | (term, synonyms) :: rest =>
      expand_terms query_lower rest
        (if PyStr.contains term query_lower
         then expand_syns query_lower term (firstn 2 synonyms) expanded
         else expanded)
  end.

(** The list [expanded] as it stands when the loops of [expand_query] end. *)
Definition expanded_variants (lower : string -> string) (query : string)
  : list string :=
  expand_terms (lower query) MEDICAL_SYNONYMS [query].

Definition expand_query (lower : string -> string) (query : string) : string :=
  PyStr.join " " (firstn 3 (expanded_variants lower query)).

Definition detect_emergency (lower : string -> string) (query : string)
  : bool :=
  let query_lower := lower query in
  existsb (fun keyword => PyStr.contains keyword query_lower) EMERGENCY_KEYWORDS.

(** ** Python objects, dictionaries and exceptions *)

(** A Python [float]: a finite one is read as the rational it denotes. *)
Inductive pyfloat : Type :=
| FFinite (q : Q)
| FInf (negative : bool)
| FNaN.

(** The objects [json.load] produces, and the ones the responses are built
    from. A [dict] keeps its keys in insertion order. *)
Inductive value : Type :=
| VNone
| VBool (b : bool)
| VInt (z : Z)
| VFloat (f : pyfloat)
| VStr (s : string)
| VList (l : list value)
| VDict (d : list (string * value)).

Definition dict : Type := list (string * value).

(** [d.get(k)], [None] when the key is absent. *)
Fixpoint dict_lookup (k : string) (d : dict) : option value :=
  match d with
  | [] => None
  | (k', v) :: r => if String.eqb k k' then Some v else dict_lookup k r
  end.

(** [d.get(k, default)] *)
Definition dict_get (k : string) (default : value) (d : dict) : value :=
  match dict_lookup k d with
  | Some v => v
  | None => default
  end.

(** [d[k] = v]: an existing key keeps its place, a new key goes last. *)
Fixpoint dict_set (k : string) (v : value) (d : dict) : dict :=
  match d with
  | [] => [(k, v)]
  | (k', v') :: r =>
      if String.eqb k k' then (k, v) :: r else (k', v') :: dict_set k v r
  end.

(** [k in d] *)
Definition dict_mem (k : string) (d : dict) : bool :=
  match dict_lookup k d with
  | Some _ => true
  | None => false
  end.

Inductive exn : Type :=
| AttributeError
| TypeError
| IndexError
| AssertionError
| JSONDecodeError
| BoundaryError.   (* whatever a model boundary raises *)

Inductive result (A : Type) : Type :=
| Ok (a : A)
| Raise (e : exn).

Arguments Ok {A} a.
Arguments Raise {A} e.

Definition bind {A B : Type} (m : result A) (k : A -> result B) : result B :=
  match m with
  | Ok a => k a
  | Raise e => Raise e
  end.

Notation "x <- m ;; k" := (bind m (fun x => k))
  (at level 61, m at next level, right associativity).

(** [v.lower()]: only a [str] has the method. *)
Definition value_lower (lower : string -> string) (v : value)
  : result string :=
  match v with
  | VStr s => Ok (lower s)
  | _ => Raise AttributeError
  end.

(** [seq[:k]] for a Python [int] [k]: a negative bound counts from the end. *)
Definition slice_to {A : Type} (k : Z) (l : list A) : list A :=
  if (0 <=? k)%Z then firstn (Z.to_nat k) l
  else firstn (Z.to_nat (Z.of_nat (length l) + k)) l.

(** ** Stable sort, best score first *)

Section Sort.
Context {A : Type} (key : A -> Q).

(** [x] goes in front of the first element whose key is not greater: equal
    keys keep the order they arrived in. *)
Fixpoint insert_desc (x : A) (l : list A) : list A :=
  match l with
  | [] => [x]
  | y :: r =>
      if Qle_bool (key y) (key x) then x :: l else y :: insert_desc x r
  end.

(** [l.sort(key=key, reverse=True)] *)
Fixpoint sort_desc (l : list A) : list A :=
  match l with
  | [] => []
  | x :: r => insert_desc x (sort_desc r)
  end.
End Sort.

(** ** [json.loads]

    A decoder for the JSON grammar as Python's [json] module reads it: objects
    become dictionaries (a repeated key keeps its first place and its last
    value), arrays lists, numbers [int] or [float], and the literals [NaN],
    [Infinity] and [-Infinity] are accepted. Escapes [\uXXXX] are stored as
    UTF-8, a surrogate pair as one code point. The interpreter's recursion
    limit is not modelled. [fuel] bounds the nesting and the number of
    members read; [loads] supplies more than any text can use. *)

Module Json.

(** The double quote character. *)
Definition dquote : ascii := ascii_of_nat 34.

Definition is_ws (c : ascii) : bool :=
  let n := nat_of_ascii c in
  (n =? 32)%nat || (n =? 9)%nat || (n =? 10)%nat || (n =? 13)%nat.

Fixpoint skip_ws (s : string) : string :=
  match s with
  | String c r => if is_ws c then skip_ws r else s
  | EmptyString => s
  end.

Definition digit_of (c : ascii) : option N :=
  let n := N_of_ascii c in
  if (48 <=? n)%N && (n <=? 57)%N then Some (n - 48)%N else None.

Definition hex_of (c : ascii) : option N :=
  let n := N_of_ascii c in
  if (48 <=? n)%N && (n <=? 57)%N then Some (n - 48)%N
  else if (65 <=? n)%N && (n <=? 70)%N then Some (n - 55)%N
  else if (97 <=? n)%N && (n <=? 102)%N then Some (n - 87)%N
  else None.

Definition hex4 (a b c d : ascii) : option N :=
  match hex_of a, hex_of b, hex_of c, hex_of d with
  | Some x, Some y, Some z, Some w =>
      Some (((x * 16 + y) * 16 + z) * 16 + w)%N
  | _, _, _, _ => None
  end.

(** What a string literal is made of: a character of the text, or the code
    unit of an escape. *)
Inductive item : Type :=
| Raw (c : ascii)
| Unit (u : N).

(** The text after an opening quote, up to the closing one. *)
Fixpoint string_items (s : string) : option (list item * string) :=
  match s with
  | EmptyString => None
  | String c r =>
      if Ascii.eqb c dquote then Some ([], r)
      else if Ascii.eqb c "\" then
        match r with
        | String e r' =>
            let simple (u : N) :=
              match string_items r' with
              | Some (l, rest) => Some (Unit u :: l, rest)
              | None => None
              end in
            if Ascii.eqb e dquote then simple 34%N
            else if Ascii.eqb e "\" then simple 92%N
            else if Ascii.eqb e "/" then simple 47%N
            else if Ascii.eqb e "b" then simple 8%N
            else if Ascii.eqb e "f" then simple 12%N
            else if Ascii.eqb e "n" then simple 10%N
            else if Ascii.eqb e "r" then simple 13%N
            else if Ascii.eqb e "t" then simple 9%N
            else if Ascii.eqb e "u" then
              match r' with
              | String h1 (String h2 (String h3 (String h4 r''))) =>
                  match hex4 h1 h2 h3 h4, string_items r'' with
                  | Some u, Some (l, rest) => Some (Unit u :: l, rest)
                  | _, _ => None
                  end
              | _ => None
              end
            else None
        | EmptyString => None
        end
      else if (N_of_ascii c <? 32)%N then None
      else
        match string_items r with
        | Some (l, rest) => Some (Raw c :: l, rest)
        | None => None
        end
  end.

Definition byte (n : N) : ascii := ascii_of_N n.

(** The UTF-8 bytes of a code point. *)
Definition utf8 (u : N) : string :=
  if (u <? 128)%N then String (byte u) EmptyString
  else if (u <? 2048)%N then
    String (byte (192 + u / 64)) (String (byte (128 + u mod 64)) EmptyString)
  else if (u <? 65536)%N then
    String (byte (224 + u / 4096))
      (String (byte (128 + (u / 64) mod 64))
         (String (byte (128 + u mod 64)) EmptyString))
  else
    String (byte (240 + u / 262144))
      (String (byte (128 + (u / 4096) mod 64))
         (String (byte (128 + (u / 64) mod 64))
            (String (byte (128 + u mod 64)) EmptyString))).

Definition high_surrogate (u : N) : bool := (55296 <=? u)%N && (u <=? 56319)%N.
Definition low_surrogate (u : N) : bool := (56320 <=? u)%N && (u <=? 57343)%N.

Fixpoint encode_items (l : list item) : string :=
  match l with
  | [] => EmptyString
  | Raw c :: r => String c (encode_items r)
  | Unit hi :: r =>
      match r with
      | Unit lo :: r' =>
          if high_surrogate hi && low_surrogate lo
          then utf8 (65536 + (hi - 55296) * 1024 + (lo - 56320)) ++ encode_items r'
          else utf8 hi ++ encode_items r
      | _ => utf8 hi ++ encode_items r
      end
  end.

Definition parse_string (s : string) : option (string * string) :=
  match string_items s with
  | Some (l, rest) => Some (encode_items l, rest)
  | None => None
  end.

(** A run of digits: its value, how many there are, and what follows. *)
Fixpoint digits (s : string) (acc : N) (count : nat) : N * nat * string :=
  match s with
  | String c r =>
      match digit_of c with
      | Some d => digits r (acc * 10 + d)%N (S count)
      | None => (acc, count, s)
      end
  | EmptyString => (acc, count, s)
  end.

(** The integer part: [0], or a run of digits that does not start with [0]. *)
Definition int_part (s : string) : option (N * string) :=
  match s with
  | String c r =>
      match digit_of c with
      | Some 0%N => Some (0%N, r)
      | Some _ => let '(n, _, rest) := digits s 0 0 in Some (n, rest)
      | None => None
      end
  | EmptyString => None
  end.

(** An optional fraction [.ddd]: its digits as a number and their count. *)
Definition frac_part (s : string) : option (N * nat * string) :=
  match s with
  | String "." r =>
      match digits r 0 0 with
      | (_, O, _) => None
      | (n, k, rest) => Some (n, k, rest)
      end
  | _ => None
  end.

(** An optional exponent [e+dd]. *)
Definition exp_part (s : string) : option (Z * string) :=
  match s with
  | String c r =>
      if Ascii.eqb c "e" || Ascii.eqb c "E" then
        let '(neg, r1) :=
          match r with
          | String "-" r' => (true, r')
          | String "+" r' => (false, r')
          | _ => (false, r)
          end in
        match digits r1 0 0 with
        | (_, O, _) => None
        | (n, _, rest) => Some (if neg then (- Z.of_N n)%Z else Z.of_N n, rest)
        end
      else None
  | EmptyString => None
  end.

Definition pow10 (e : Z) : Q :=
  if (0 <=? e)%Z then inject_Z (10 ^ e) else 1 / inject_Z (10 ^ (- e)).

Definition parse_number (s : string) : option (value * string) :=
  let '(neg, s1) :=
    match s with
    | String "-" r => (true, r)
    | _ => (false, s)
    end in
  match int_part s1 with
  | None => None
  | Some (i, s2) =>
      let sign (q : Q) : Q := if neg then - q else q in
      match frac_part s2, exp_part s2 with
      | None, None => Some (VInt (if neg then - Z.of_N i else Z.of_N i)%Z, s2)
      | None, Some (e, s3) =>
          Some (VFloat (FFinite (sign (inject_Z (Z.of_N i) * pow10 e))), s3)
      | Some (f, k, s3), _ =>
          let m := inject_Z (Z.of_N i) + inject_Z (Z.of_N f) * pow10 (- Z.of_nat k) in
          match exp_part s3 with
          | Some (e, s4) => Some (VFloat (FFinite (sign (m * pow10 e))), s4)
          | None => Some (VFloat (FFinite (sign m)), s3)
          end
      end
  end.

(** [s] without the prefix [p], when it has it. *)
Fixpoint strip (p s : string) : option string :=
  match p, s with
  | EmptyString, _ => Some s
  | String a p', String b s' => if Ascii.eqb a b then strip p' s' else None
  | String _ _, EmptyString => None
  end.

Definition parse_literal (s : string) : option (value * string) :=
  match strip "null" s, strip "true" s, strip "false" s with
  | Some r, _, _ => Some (VNone, r)
  | _, Some r, _ => Some (VBool true, r)
  | _, _, Some r => Some (VBool false, r)
  | _, _, _ =>
      match strip "NaN" s, strip "Infinity" s, strip "-Infinity" s with
      | Some r, _, _ => Some (VFloat FNaN, r)
      | _, Some r, _ => Some (VFloat (FInf false), r)
      | _, _, Some r => Some (VFloat (FInf true), r)
      | _, _, _ => None
      end
  end.

(** [parse_value] reads one value at the head of [s]; [parse_elements] the
    rest of an array after its first bracket or a comma, [parse_members] the
    rest of an object. *)
Fixpoint parse_value (fuel : nat) (s : string) : option (value * string) :=
  match fuel with
  | O => None
  | S fuel' =>
      match s with
      | String "[" r =>
          match skip_ws r with
          | String "]" r' => Some (VList [], r')
          | r1 =>
              match parse_elements fuel' r1 with
              | Some (l, rest) => Some (VList l, rest)
              | None => None
              end
          end
      | String "{" r =>
          match skip_ws r with
          | String "}" r' => Some (VDict [], r')
          | r1 =>
              match parse_members fuel' r1 [] with
              | Some (d, rest) => Some (VDict d, rest)
              | None => None
              end
          end
      | String c r =>
          if Ascii.eqb c dquote then
            match parse_string r with
            | Some (str, rest) => Some (VStr str, rest)
            | None => None
            end
          else
            match parse_literal s with
            | Some res => Some res
            | None => parse_number s
            end
      | EmptyString => None
      end
  end
with parse_elements (fuel : nat) (s : string) : option (list value * string) :=
  match fuel with
  | O => None
  | S fuel' =>
      match parse_value fuel' s with
      | None => None
      | Some (v, r) =>
          match skip_ws r with
          | String "]" r' => Some ([v], r')
          | String "," r' =>
              match parse_elements fuel' (skip_ws r') with
              | Some (l, rest) => Some (v :: l, rest)
              | None => None
              end
          | _ => None
          end
      end
  end
with parse_members (fuel : nat) (s : string) (acc : dict)
     : option (dict * string) :=
  match fuel with
  | O => None
  | S fuel' =>
      match s with
      | String c r =>
          if Ascii.eqb c dquote then
            match parse_string r with
            | None => None
            | Some (k, r1) =>
                match skip_ws r1 with
                | String ":" r2 =>
                    match parse_value fuel' (skip_ws r2) with
                    | None => None
                    | Some (v, r3) =>
                        let acc' := dict_set k v acc in
                        match skip_ws r3 with
                        | String "}" r4 => Some (acc', r4)
                        | String "," r4 => parse_members fuel' (skip_ws r4) acc'
                        | _ => None
                        end
                    end
                | _ => None
                end
            end
          else None
      | EmptyString => None
      end
  end.

(** [json.loads(s)]: one value, white space around it, nothing else. *)
Definition loads (s : string) : option value :=
  match parse_value (2 * String.length s + 2) (skip_ws s) with
  | Some (v, rest) =>
      match skip_ws rest with
      | EmptyString => Some v
      | _ => None
      end
  | None => None
  end.

End Json.

(** ** The vector index

    [faiss.IndexFlatIP]: the stored vectors in insertion order; a search
    scores every stored vector by inner product with the query and returns
    the [k] best as (score, position) pairs, best first. The Python wrapper
    asserts the query dimension and [k > 0]. *)

Definition vec : Type := list Q.

Fixpoint dot (u v : vec) : Q :=
  match u, v with
  | x :: u', y :: v' => x * y + dot u' v'
  | _, _ => 0
  end.

Record Index : Type := mkIndex {
  dim : nat;
  xb : list vec
}.

Definition IndexFlatIP (dimension : nat) : Index :=
  {| dim := dimension; xb := [] |}.

Definition index_add (ix : Index) (vs : list vec) : Index :=
  {| dim := dim ix; xb := xb ix ++ vs |}.

Definition ntotal (ix : Index) : nat := length (xb ix).

Fixpoint scores_from (q : vec) (vs : list vec) (pos : nat) : list (Q * nat) :=
  match vs with
  | [] => []
  | v :: r => (dot q v, pos) :: scores_from q r (S pos)
  end.

Definition index_search (ix : Index) (q : vec) (k : Z)
  : result (list (Q * nat)) :=
  if negb (length q =? dim ix)%nat then Raise AssertionError
  else if (k <=? 0)%Z then Raise AssertionError
  else Ok (firstn (Z.to_nat k) (sort_desc fst (scores_from q (xb ix) 0))).

(** ** System state *)

Record State : Type := mkState {
  documents : list string;
  metadata : list dict;
  index : option Index;
  loaded : bool
}.

(** The state [__init__] leaves. *)
Definition init : State :=
  {| documents := []; metadata := []; index := None; loaded := false |}.

(** One entry of a result list: the dictionary with the keys [score],
    [metadata] and [text] that [search] appends. *)
Record SearchResult : Type := mkResult {
  sr_score : Q;
  sr_metadata : dict;
  sr_text : string
}.

Definition SEVERITY_BOOST : list (string * Q) :=
  [ ("emergency", 3 # 2); ("urgent", 6 # 5); ("routine", 1) ].

Fixpoint assoc {A : Type} (k : string) (l : list (string * A)) : option A :=
  match l with
  | [] => None
  | (k', a) :: r => if String.eqb k k' then Some a else assoc k r
  end.

(** [SEVERITY_BOOST.get(severity, 1.0)]: a list or a dictionary cannot be
    hashed; any other object that is not a key of the table gets [1.0]. *)
Definition boost_of (severity : value) : result Q :=
  match severity with
  | VStr s =>
      Ok (match assoc s SEVERITY_BOOST with
          | Some b => b
          | None => 1
          end)
  | VList _ | VDict _ => Raise TypeError
  | _ => Ok 1
  end.

Definition Qlt_bool (x y : Q) : bool := negb (Qle_bool y x).

(** [seq[i]] *)
Definition item_at {A : Type} (l : list A) (i : nat) : result A :=
  match nth_error l i with
  | Some a => Ok a
  | None => Raise IndexError
  end.

(** [species and meta.get('species', '').lower() != species.lower()] *)
Definition species_rejects (lower : string -> string)
    (species : option string) (meta : dict) : result bool :=
  match species with
  | None => Ok false
  | Some EmptyString => Ok false
  | Some sp =>
      s <- value_lower lower (dict_get "species" (VStr EmptyString) meta) ;;
      Ok (negb (String.eqb s (lower sp)))
  end.

(** The loop of [search] over the (score, position) pairs of the index. *)
Fixpoint search_loop (lower : string -> string) (st : State)
                     (species : option string)
                     (cands : list (Q * nat)) (results : list SearchResult)
  : result (list SearchResult) :=
  match cands with
  | [] => Ok results
  | (score, idx) :: rest =>
      if Qlt_bool score MIN_SIMILARITY
      then search_loop lower st species rest results
      else
        meta <- item_at (metadata st) idx ;;
        skip <- species_rejects lower species meta ;;
        if (skip : bool) then search_loop lower st species rest results
        else
          let severity := dict_get "severity" (VStr "routine") meta in
          boost <- boost_of severity ;;
          text <- item_at (documents st) idx ;;
          search_loop lower st species rest
            (results ++ [ {| sr_score := score * boost;
                             sr_metadata := meta;
                             sr_text := text |} ])
  end.

(** ** The response synthesizer: fallback and metadata *)

Definition str_list (l : list string) : value := VList (map VStr l).

(** [re.search(r'\{.*\}', text, re.DOTALL)]: from the first opening brace to
    the last closing brace after it. *)
Fixpoint from_open (s : string) : option string :=
  match s with
  | EmptyString => None
  | String c r => if Ascii.eqb c "{" then Some s else from_open r
  end.

Fixpoint to_last_close (s : string) : option string :=
  match s with
  | EmptyString => None
  | String c r =>
      match to_last_close r with
      | Some p => Some (String c p)
      | None => if Ascii.eqb c "}" then Some (String c EmptyString) else None
      end
  end.

Definition json_match (text : string) : option string :=
  match from_open text with
  | Some s => to_last_close s
  | None => None
  end.

(** The [query_metadata] record of [generate_response]. *)
Definition query_metadata (now : string) (matched_entries : list SearchResult)
                          (is_emergency : bool) : value :=
  VDict
    [ ("timestamp", VStr now);
      ("num_matches", VInt (Z.of_nat (length matched_entries)));
      ("is_emergency", VBool is_emergency);
      ("top_match_score",
        match matched_entries with
        | m :: _ => VFloat (FFinite (sr_score m))
        | [] => VInt 0
        end) ].

Section Boundaries.

(** [str.lower] *)
Variable lower : string -> string.
(** The sentence embedder on one text, normalised. *)
Variable encode : string -> vec.
(** [str(v)] of an object that is not a [str], as an f-string renders it. *)
Variable py_str : value -> string.
(** Reading a file: its text, or [None] when [open] raises. *)
Variable read_file : string -> option string.
(** [json.loads]: the decoded object, or [None] when it raises. *)
Variable json_loads : string -> option value.

(** [f"{v}"] *)
Definition format_value (v : value) : string :=
  match v with
  | VStr s => s
  | _ => py_str v
  end.

(** *** [load_datasets] *)

Definition category_of (filename : string) : string :=
  PyStr.after_last "/"
    (PyStr.replace (PyStr.replace filename "master_" EmptyString)
                   "_dataset.json" EmptyString).

(** What a [for] loop over [v] visits. *)
Definition iterate (v : value) : result (list value) :=
  match v with
  | VList l => Ok l
  | VDict d => Ok (map (fun kv => VStr (fst kv)) d)
  | VStr s => Ok (map VStr (PyStr.chars s))
  | _ => Raise TypeError
  end.

(** The loop over the entries of one file. An entry that is not a
    dictionary raises at [entry.get]; what was appended before stays. *)
Fixpoint load_entries (category : string) (entries : list value)
                      (all_texts : list string) (all_metadata : list dict)
  : list string * list dict :=
  match entries with
  | VDict entry :: rest =>
      let text :=
        (format_value (dict_get "symptom" (VStr EmptyString) entry) ++ ". " ++
         format_value (dict_get "description" (VStr EmptyString) entry))%string in
      load_entries category rest
        (all_texts ++ [text])
        (all_metadata ++ [dict_set "category" (VStr category) entry])
  | _ => (all_texts, all_metadata)
  end.

(** The body of the [try] for one file; every exception is caught by the
    loop over the files, which goes on to the next one. *)
Definition load_file (filename : string)
                     (all_texts : list string) (all_metadata : list dict)
  : list string * list dict :=
  match read_file filename with
  | None => (all_texts, all_metadata)
  | Some content =>
      match json_loads content with
      | Some (VDict data) =>
          match iterate (dict_get "entries" (VList []) data) with
          | Ok entries =>
              load_entries (category_of filename) entries all_texts all_metadata
          | Raise _ => (all_texts, all_metadata)
          end
      | _ => (all_texts, all_metadata)
      end
  end.

Fixpoint load_files (dataset_files : list string)
                    (all_texts : list string) (all_metadata : list dict)
  : list string * list dict :=
  match dataset_files with
  | [] => (all_texts, all_metadata)
  | filename :: rest =>
      let '(texts, metas) := load_file filename all_texts all_metadata in
      load_files rest texts metas
  end.

Definition load_datasets (st : State) (dataset_files : list string)
  : bool * State :=
  let '(all_texts, all_metadata) := load_files dataset_files [] [] in
  match all_texts with
  | [] => (false, st)
  | _ :: _ =>
      let embeddings := map encode all_texts in
      let dimension := length (hd [] embeddings) in
      let ix := index_add (IndexFlatIP dimension) embeddings in
      (true,
       {| documents := all_texts;
          metadata := all_metadata;
          index := Some ix;
          loaded := true |})
  end.

(** *** [search] *)

Definition search (st : State) (query : string) (species : option string)
                  (top_k : Z) : result (list SearchResult) :=
  if negb (loaded st) then Ok []
  else
    let expanded_query := expand_query lower query in
    let query_emb := encode expanded_query in
    match index st with
    | None => Raise AttributeError
    | Some ix =>
        cands <- index_search ix query_emb
                   (Z.min (top_k * 2) (Z.of_nat (length (documents st)))) ;;
        results <- search_loop lower st species cands [] ;;
        Ok (slice_to top_k (sort_desc sr_score results))
    end.

(** *** [_create_fallback_response] *)

Definition _create_fallback_response (pet_details : dict)
    (matched_entries : list SearchResult) (is_emergency : bool) : dict :=
  match matched_entries with
  | [] =>
      [ ("pet_name", dict_get "name" (VStr "Your pet") pet_details);
        ("summary",
          VStr "We couldn't find specific information for these symptoms.");
        ("what_we_found",
          VStr "The symptoms you described don't closely match our database. This doesn't mean it's not serious.");
        ("immediate_steps",
          str_list [ "Monitor your pet closely";
                     "Note any changes in behavior or symptoms";
                     "Keep your pet comfortable" ]);
        ("home_care_tips",
          str_list [ "Ensure fresh water is available";
                     "Keep in a cool, comfortable place";
                     "Don't force food if not eating" ]);
        ("when_to_see_vet",
          VStr "Given the uncertainty, we recommend consulting a veterinarian soon.");
        ("urgency_level", VStr (if is_emergency then "urgent" else "routine"));
        ("service_recommendation",
          VStr (if is_emergency then "in_clinic" else "video_consult"));
        ("confidence", VStr "low");
        ("additional_notes",
          VStr "Without clear symptom matches, professional veterinary assessment is recommended.") ]
  | first :: _ =>
      let top := sr_metadata first in
      [ ("pet_name", dict_get "name" (VStr "Your pet") pet_details);
        ("summary",
          VStr ("Based on symptoms, this appears to be related to " ++
                format_value (dict_get "symptom" (VStr "the condition") top)));
        ("what_we_found", dict_get "description" (VStr EmptyString) top);
        ("immediate_steps",
          str_list [ "Follow home care guidelines below";
                     "Monitor symptoms closely";
                     "Note any worsening" ]);
        ("home_care_tips",
          VList [ dict_get "home_care_india"
                    (VStr "Keep comfortable and monitor") top ]);
        ("when_to_see_vet",
          dict_get "vet_triggers" (VStr "If symptoms persist or worsen") top);
        ("urgency_level", dict_get "severity" (VStr "routine") top);
        ("service_recommendation",
          dict_get "service_recommendation" (VStr "video_consult") top);
        ("confidence", VStr "medium");
        ("additional_notes",
          dict_get "indian_climate_factors" (VStr EmptyString) top) ]
  end.

(** *** [generate_response]

    The prompt is rendered from the arguments without raising and handed to
    the generative model; [reply] is what [generate_content(prompt).text]
    does on it: the text, or an exception. [now] is the clock reading. *)

Definition generate_response (pet_details : dict) (query : string)
    (matched_entries : list SearchResult)
    (now : string) (reply : result string) : dict :=
  let is_emergency := detect_emergency lower query in
  let attempt : result dict :=
    text <- reply ;;
    result <-
      match json_match text with
      | Some group =>
          match json_loads group with
          | Some v => Ok v
          | None => Raise JSONDecodeError
          end
      | None =>
          Ok (VDict (_create_fallback_response
                       pet_details matched_entries is_emergency))
      end ;;
    match result with
    | VDict r =>
        Ok (dict_set "query_metadata"
              (query_metadata now matched_entries is_emergency) r)
    | _ => Raise TypeError
    end in
  match attempt with
  | Ok r => r
  | Raise _ =>
      _create_fallback_response pet_details matched_entries is_emergency
  end.

(** *** [process_query] *)

Definition species_filter (species : string) : option string :=
  if PyStr.contains "dog" species then Some "dogs"
  else if PyStr.contains "cat" species then Some "cats"
  else None.

Definition process_query (st : State) (pet_details : dict) (query : string)
    (now : string) (reply : result string) : result dict :=
  species <-
    value_lower lower (dict_get "species" (VStr EmptyString) pet_details) ;;
  matches <- search st query (species_filter species) TOP_K ;;
  Ok (generate_response pet_details query matches now reply).

End Boundaries.

(** ** Reachable states *)

(** The states a system goes through: [__init__], then any number of calls of
    [load_datasets]; no other method assigns a field. *)
Inductive reachable (encode : string -> vec) (py_str : value -> string)
    (read_file : string -> option string)
    (json_loads : string -> option value) : State -> Prop :=
| reach_init : reachable encode py_str read_file json_loads init
| reach_load st dataset_files :
    reachable encode py_str read_file json_loads st ->
    reachable encode py_str read_file json_loads
      (snd (load_datasets encode py_str read_file json_loads st dataset_files)).

(** A loaded state has an index over exactly the stored entries. *)
Definition index_covers (encode : string -> vec) (st : State) : Prop :=
  exists ix,
    index st = Some ix /\
    xb ix = map encode (documents st) /\
    dim ix = length (hd [] (map encode (documents st))) /\
    ntotal ix = length (documents st) /\
    length (metadata st) = length (documents st) /\
    documents st <> [].

(** The corpus as the data model has it: a species that is a string and a
    severity among the three levels, where the fields are present. *)
Definition is_level (v : value) : bool :=
  match v with
  | VStr s =>
      String.eqb s "emergency" || String.eqb s "urgent" || String.eqb s "routine"
  | _ => false
  end.

Definition is_str (v : value) : bool :=
  match v with
  | VStr _ => true
  | _ => false
  end.

Definition meta_ok (meta : dict) : bool :=
  is_str (dict_get "species" (VStr EmptyString) meta) &&
  is_level (dict_get "severity" (VStr "routine") meta).

Definition corpus_ok (st : State) : bool := forallb meta_ok (metadata st).

(** ** What the generative model's reply decodes to *)

(** The dictionary [generate_response] obtains from the reply, when it
    obtains one: the model returned a text, the text has a brace-delimited
    part, and that part decodes to an object. *)
Definition decoded (json_loads : string -> option value)
                   (reply : result string) : option dict :=
  match reply with
  | Ok text =>
      match json_match text with
      | Some group =>
          match json_loads group with
          | Some (VDict d) => Some d
          | _ => None
          end
      | None => None
      end
  | Raise _ => None
  end.

(** The keys of a response other than [query_metadata]. *)
Definition CONTENT_KEYS : list string :=
  [ "pet_name"; "summary"; "what_we_found"; "immediate_steps";
    "home_care_tips"; "when_to_see_vet"; "urgency_level";
    "service_recommendation"; "confidence"; "additional_notes" ].

Definition has_content_keys (r : dict) : bool :=
  forallb (fun k => dict_mem k r) CONTENT_KEYS.

(** ** The query expander as the specification words it *)

(** For each term of the table that occurs in the lower-cased query, one
    variant per synonym among the first two of the term that does not occur
    in it, the term replaced by the synonym. *)
Definition spec_variants (lower : string -> string) (query : string)
  : list string :=
  let query_lower := lower query in
  flat_map
    (fun entry : string * list string =>
       let (term, synonyms) := entry in
       if PyStr.contains term query_lower
       then map (fun syn => PyStr.replace query_lower term syn)
                (filter (fun syn => negb (PyStr.contains syn query_lower))
                        (firstn 2 synonyms))
       else [])
    MEDICAL_SYNONYMS.

(** The original query and up to two variants, joined by spaces. *)
Definition expand_query_spec (lower : string -> string) (query : string)
  : string :=
  PyStr.join " " (query :: firstn 2 (spec_variants lower query)).

(** ** A small installation, for concrete runs *)

Module Demo.

(** JSON texts are written with single quotes and read with double ones. *)
Fixpoint dq (s : string) : string :=
  match s with
  | EmptyString => EmptyString
  | String c r => String (if Ascii.eqb c "'" then Json.dquote else c) (dq r)
  end.

(** [str.lower] on the texts of the runs, which are ASCII texts. *)
Definition lower : string -> string := PyStr.ascii_lower.

(** An embedder with three unit directions. *)
Definition encode (s : string) : vec :=
  let t := PyStr.ascii_lower s in
  if PyStr.contains "vomit" t then [1; 0]
  else if PyStr.contains "nausea" t then [3 # 5; 4 # 5]
  else [0; 1].

(** [str] on the objects whose rendering is a fixed word; the runs below
    render strings only. *)
Definition py_str (v : value) : string :=
  match v with
  | VNone => "None"
  | VBool true => "True"
  | VBool false => "False"
  | VStr s => s
  | _ => "object"
  end.

Definition digestive : string := "datasets/master_digestive_dataset.json".

Definition digestive_json : string := dq
  "{'entries': [
     {'symptom': 'Vomiting', 'description': 'Repeated vomiting after meals',
      'severity': 'routine', 'species': 'dogs',
      'service_recommendation': 'video_consult'},
     {'symptom': 'Vomiting blood', 'description': 'Vomit with fresh blood',
      'severity': 'emergency', 'species': 'Dogs',
      'service_recommendation': 'in_clinic'},
     {'symptom': 'Nausea', 'description': 'Drooling and lip licking',
      'severity': 'urgent', 'species': 'dogs'},
     {'symptom': 'Hairball', 'description': 'Cat vomits hair',
      'severity': 'routine', 'species': 'cats'},
     {'symptom': 'Itchy skin', 'description': 'Scratching all day',
      'severity': 'routine', 'species': 'dogs'}
   ]}".

Definition read_file (filename : string) : option string :=
  if String.eqb filename digestive then Some digestive_json else None.

Definition load (st : State) (files : list string) : bool * State :=
  load_datasets encode py_str read_file Json.loads st files.

(** The state after loading the one dataset. *)
Definition loaded_state : State := snd (load init [digestive]).

Definition pet : dict :=
  [ ("name", VStr "Bruno"); ("species", VStr "Dog"); ("breed", VStr "Mixed");
    ("age", VStr "Unknown"); ("weight", VStr "Unknown");
    ("sex", VStr "Unknown"); ("vaccination_summary", VStr "Not provided");
    ("medical_history", VStr "No history provided") ].

Definition query : string := "my dog has been vomiting since morning".

Definition now : string := "2024-01-01T00:00:00".

Definition run (st : State) (reply : result string) : result dict :=
  process_query lower encode py_str Json.loads st pet query now reply.

End Demo.

(** ** Notions the properties are stated with *)

(** [a] may stand before [b] in a list sorted best first: its key is not
    smaller. *)
Definition before {A : Type} (key : A -> Q) (a b : A) : Prop :=
  (key b <= key a)%Q.

(** Candidate [c] of the index passes the threshold and the species filter,
    and [r] is the entry the loop appends for it. *)
Definition admits (lower : string -> string) (st : State)
                  (species : option string)
                  (c : Q * nat) (r : SearchResult) : Prop :=
  Qlt_bool (fst c) MIN_SIMILARITY = false /\
  exists meta boost text,
    nth_error (metadata st) (snd c) = Some meta /\
    species_rejects lower species meta = Ok false /\
    boost_of (dict_get "severity" (VStr "routine") meta) = Ok boost /\
    nth_error (documents st) (snd c) = Some text /\
    r = {| sr_score := fst c * boost; sr_metadata := meta; sr_text := text |}.

(** The candidates that are not below the threshold. *)
Definition above_threshold (cands : list (Q * nat)) : list (Q * nat) :=
  filter (fun c => negb (Qlt_bool (fst c) MIN_SIMILARITY)) cands.

(** [c] is among the (score, position) pairs the index returns for the
    query. *)
Definition candidate (lower : string -> string) (encode : string -> vec)
                     (st : State) (query : string)
                     (top_k : Z) (c : Q * nat) : Prop :=
  exists ix cands,
    index st = Some ix /\
    index_search ix (encode (expand_query lower query))
      (Z.min (top_k * 2) (Z.of_nat (length (documents st)))) = Ok cands /\
    In c cands.

(** A field of the response of a call, when the call returns one. *)
Definition response_field (k : string) (res : result dict) : option value :=
  match res with
  | Ok r => dict_lookup k r
  | Raise _ => None
  end.

(** ** Texts and their characters *)

(** [c] does not occur in [s]. *)
Fixpoint no_char (c : ascii) (s : string) : bool :=
  match s with
  | EmptyString => true
  | String a r => negb (Ascii.eqb a c) && no_char c r
  end.

(** No visible ASCII character is among the first [n] bytes of [s]. *)
Fixpoint blank_head (n : nat) (s : string) : bool :=
  match n, s with
  | S k, String c r => negb (PyStr.visible c) && blank_head k r
  | _, _ => true
  end.

(** No visible ASCII character occurs in [s]. *)
Fixpoint blank (s : string) : bool :=
  match s with
  | EmptyString => true
  | String c r => negb (PyStr.visible c) && blank r
  end.

(** [s.lstrip()]: the white-space characters [s] starts with are dropped.
    [skip] counts the bytes of a white-space character still to be
    dropped. *)
Fixpoint lstrip_from (s : string) (skip : nat) : string :=
  match s with
  | EmptyString => EmptyString
  | String _ r =>
      match skip with
      | S k => lstrip_from r k
      | O =>
          match PyStr.space_width s with
          | O => s
          | S k => lstrip_from r k
          end
      end
  end.

Definition lstrip (s : string) : string := lstrip_from s 0.

(** [s.rstrip()]: the text is cut where only white space follows. *)
Fixpoint rstrip (s : string) : string :=
  match s with
  | EmptyString => EmptyString
  | String c r => if PyStr.white s then EmptyString else String c (rstrip r)
  end.

(** [s.strip()] *)
Definition strip (s : string) : string := rstrip (lstrip s).

(** The text [symptom. description] a corpus entry is embedded as. *)
Definition rendered (py_str : value -> string) (meta : dict) : string :=
  (format_value py_str (dict_get "symptom" (VStr EmptyString) meta) ++ ". " ++
   format_value py_str (dict_get "description" (VStr EmptyString) meta))%string.


(** ** Dataset files *)

(** A file that contributes nothing: it cannot be read, or its text does not
    decode, or it decodes to something other than an object. *)
Definition unusable (read_file : string -> option string)
    (json_loads : string -> option value) (filename : string) : bool :=
  match read_file filename with
  | None => true
  | Some content =>
      match json_loads content with
      | Some (VDict _) => false
      | _ => true
      end
  end.

Definition is_dict (v : value) : bool :=
  match v with
  | VDict _ => true
  | _ => false
  end.

(** A stored entry is well kept: it has a category, which is a string. *)
Definition has_category (meta : dict) : Prop :=
  exists category, dict_lookup "category" meta = Some (VStr category).

(** ** The HTTP layer ([backend/app.py])

    A handler returns the pair of a JSON body and a status code. The request
    body is what [request.get_json()] does: the decoded object, or an
    exception. Exceptions of this layer extend the ones of the core. *)

Inductive app_exn : Type :=
| CoreError (e : exn)
| KeyError
| ValueError
| FileNotFoundError
| RuntimeError
| RequestError.   (* raised by [request.get_json] *)

Inductive outcome (A : Type) : Type :=
| Return (a : A)
| Throw (e : app_exn).

Arguments Return {A} a.
Arguments Throw {A} e.

Definition and_then {A B : Type} (m : outcome A) (k : A -> outcome B)
  : outcome B :=
  match m with
  | Return a => k a
  | Throw e => Throw e
  end.

Notation "x <~ m ;; k" := (and_then m (fun x => k))
  (at level 61, m at next level, right associativity).

(** A call into the core. *)
Definition of_core {A : Type} (m : result A) : outcome A :=
  match m with
  | Ok a => Return a
  | Raise e => Throw (CoreError e)
  end.

(** [bool(v)] *)
Definition py_truthy (v : value) : bool :=
  match v with
  | VNone => false
  | VBool b => b
  | VInt z => negb (z =? 0)%Z
  | VFloat (FFinite q) => negb (Qeq_bool q 0)
  | VFloat _ => true
  | VStr s => match s with EmptyString => false | _ => true end
  | VList l => match l with [] => false | _ => true end
  | VDict d => match d with [] => false | _ => true end
  end.

(** [k in v] for a string [k]: a key of a dictionary, an element of a list,
    a substring of a string; other objects are not containers. *)
Definition py_in (k : string) (v : value) : outcome bool :=
  match v with
  | VDict d => Return (dict_mem k d)
  | VList l =>
      Return (existsb (fun x => match x with
                                | VStr s => String.eqb s k
                                | _ => false
                                end) l)
  | VStr s => Return (PyStr.contains k s)
  | _ => Throw (CoreError TypeError)
  end.

(** [v[k]] for a string [k] *)
Definition py_getitem (v : value) (k : string) : outcome value :=
  match v with
  | VDict d =>
      match dict_lookup k d with
      | Some x => Return x
      | None => Throw KeyError
      end
  | _ => Throw (CoreError TypeError)
  end.

(** [v.get(k, default)] *)
Definition py_get (v : value) (k : string) (default : value) : outcome value :=
  match v with
  | VDict d => Return (dict_get k default d)
  | _ => Throw (CoreError AttributeError)
  end.

(** [v.strip()] *)
Definition value_strip (v : value) : outcome string :=
  match v with
  | VStr s => Return (strip s)
  | _ => Throw (CoreError AttributeError)
  end.

(** [len(v)] *)
Definition py_len (v : value) : outcome nat :=
  match v with
  | VStr s => Return (PyStr.len s)
  | VList l => Return (length l)
  | VDict d => Return (length d)
  | _ => Throw (CoreError TypeError)
  end.

Definition is_empty (s : string) : bool :=
  match s with
  | EmptyString => true
  | String _ _ => false
  end.

(** The loop of [validate_pet_details] over the required fields: the first
    field that is absent or blank, if there is one. *)
Fixpoint first_missing (data : value) (fields : list string)
  : outcome (option string) :=
  match fields with
  | [] => Return None
  | field :: rest =>
      present <~ py_in field data ;;
      if negb present then Return (Some field)
      else
        v <~ py_getitem data field ;;
        s <~ value_strip v ;;
        if is_empty s then Return (Some field)
        else first_missing data rest
  end.

Definition validate_pet_details (lower : string -> string) (data : value)
  : outcome (bool * string) :=
  missing <~ first_missing data ["name"; "species"; "query"] ;;
  match missing with
  | Some field => Return (false, ("Missing required field: " ++ field)%string)
  | None =>
      v <~ py_getitem data "species" ;;
      species <~ of_core (value_lower lower v) ;;
      if negb (PyStr.contains "dog" species) &&
         negb (PyStr.contains "cat" species)
      then Return (false, "Species must be 'Dog' or 'Cat'")
      else
        q <~ py_getitem data "query" ;;
        n <~ py_len q ;;
        if (n <? 10)%nat
        then Return (false, "Query must be at least 10 characters long")
        else
          q' <~ py_getitem data "query" ;;
          n' <~ py_len q' ;;
          if (1000 <? n')%nat
          then Return (false, "Query must be less than 1000 characters")
          else Return (true, EmptyString)
  end.

Definition error_body (message : string) : dict :=
  [ ("success", VBool false); ("error", VStr message) ].

(** [data[k].strip()] and [data.get(k, default).strip()] *)
Definition required_field (data : value) (k : string) : outcome value :=
  v <~ py_getitem data k ;;
  s <~ value_strip v ;;
  Return (VStr s).

Definition optional_field (data : value) (k default : string) : outcome value :=
  v <~ py_get data k (VStr default) ;;
  s <~ value_strip v ;;
  Return (VStr s).

(** The dictionary [pet_details] of the query handler. *)
Definition build_pet_details (data : value) : outcome dict :=
  name <~ required_field data "name" ;;
  species <~ required_field data "species" ;;
  breed <~ optional_field data "breed" "Mixed" ;;
  age <~ optional_field data "age" "Unknown" ;;
  weight <~ optional_field data "weight" "Unknown" ;;
  sex <~ optional_field data "sex" "Unknown" ;;
  vaccination <~ optional_field data "vaccination_summary" "Not provided" ;;
  history <~ optional_field data "medical_history" "No history provided" ;;
  Return [ ("name", name); ("species", species); ("breed", breed);
           ("age", age); ("weight", weight); ("sex", sex);
           ("vaccination_summary", vaccination);
           ("medical_history", history) ].

(** [rag_system is None or not rag_system.loaded] *)
Definition not_ready (rag_system : option State) : bool :=
  match rag_system with
  | None => true
  | Some rag => negb (loaded rag)
  end.

Section Api.

(** [str.lower] *)
Variable lower : string -> string.
Variable encode : string -> vec.
Variable py_str : value -> string.
Variable read_file : string -> option string.
Variable json_loads : string -> option value.
(** [str(e)] of an exception. *)
Variable exn_text : app_exn -> string.

(** The handler of [POST /query]. *)
Definition query_endpoint (rag_system : option State) (body : outcome value)
    (now : string) (reply : result string) : dict * Z :=
  let attempt : outcome (dict * Z) :=
    match rag_system with
    | None => Return (error_body "RAG system not initialized", 503%Z)
    | Some rag =>
        if negb (loaded rag)
        then Return (error_body "RAG system not initialized", 503%Z)
        else
          data <~ body ;;
          if negb (py_truthy data)
          then Return (error_body "No JSON data provided", 400%Z)
          else
            check <~ validate_pet_details lower data ;;
            let (is_valid, error_msg) := check : bool * string in
            if negb is_valid then Return (error_body error_msg, 400%Z)
            else
              pet_details <~ build_pet_details data ;;
              q <~ py_getitem data "query" ;;
              query <~ value_strip q ;;
              response <~ of_core (process_query lower encode py_str
                                     json_loads rag
                                     pet_details query now reply) ;;
              Return ([ ("success", VBool true); ("data", VDict response) ],
                      200%Z)
    end in
  match attempt with
  | Return r => r
  | Throw e =>
      ([ ("success", VBool false);
         ("error", VStr "Internal server error");
         ("message", VStr (exn_text e)) ], 500%Z)
  end.

(** The handler of [GET /health]. *)
Definition health_check (rag_system : option State) : dict * Z :=
  ([ ("status", VStr "healthy");
     ("service", VStr "SNOUTIQ API");
     ("rag_loaded", VBool (negb (not_ready rag_system))) ], 200%Z).

(** The handler of [GET /datasets/info]. *)
Definition dataset_info (rag_system : option State) : dict * Z :=
  match rag_system with
  | None => (error_body "RAG system not initialized", 503%Z)
  | Some rag =>
      if negb (loaded rag)
      then (error_body "RAG system not initialized", 503%Z)
      else
        ([ ("success", VBool true);
           ("data",
             VDict [ ("total_entries",
                       VInt (Z.of_nat (length (documents rag))));
                     ("embedding_model", VStr "all-MiniLM-L6-v2");
                     ("llm_model", VStr "gemini-2.0-flash") ]) ], 200%Z)
  end.

(** [initialize_rag_system]: [api_key] is the environment variable,
    [dataset_files] what the glob over the dataset directory finds. *)
Definition initialize_rag_system (api_key : option string)
    (dataset_files : list string) : outcome State :=
  match api_key with
  | None => Throw ValueError
  | Some key =>
      if is_empty key then Throw ValueError
      else
        let rag := init in
        match dataset_files with
        | [] => Throw FileNotFoundError
        | _ :: _ =>
            let (success, rag') :=
              load_datasets encode py_str read_file json_loads rag
                dataset_files in
            if success then Return rag' else Throw RuntimeError
        end
  end.

End Api.

(** The fields of a request the query handler reads. *)
Definition REQUEST_FIELDS : list string :=
  [ "name"; "species"; "query"; "breed"; "age"; "weight"; "sex";
    "vaccination_summary"; "medical_history" ].

(** Every field of the request that is present is a string. *)
Definition fields_are_strings (d : dict) : bool :=
  forallb (fun k => match dict_lookup k d with
                    | Some v => is_str v
                    | None => true
                    end) REQUEST_FIELDS.

(** ** Entries of the small installation, as [search] returns them *)

Module Sample.

Definition blood : SearchResult :=
  {| sr_score := 3 # 2;
     sr_metadata := [("symptom", VStr "Vomiting blood");
                     ("description", VStr "Vomit with fresh blood");
                     ("severity", VStr "emergency"); ("species", VStr "Dogs");
                     ("service_recommendation", VStr "in_clinic");
                     ("category", VStr "digestive")];
     sr_text := "Vomiting blood. Vomit with fresh blood" |}.

Definition vomiting : SearchResult :=
  {| sr_score := 1;
     sr_metadata := [("symptom", VStr "Vomiting");
                     ("description", VStr "Repeated vomiting after meals");
                     ("severity", VStr "routine"); ("species", VStr "dogs");
                     ("service_recommendation", VStr "video_consult");
                     ("category", VStr "digestive")];
     sr_text := "Vomiting. Repeated vomiting after meals" |}.

Definition nausea : SearchResult :=
  {| sr_score := 90 # 125;
     sr_metadata := [("symptom", VStr "Nausea");
                     ("description", VStr "Drooling and lip licking");
                     ("severity", VStr "urgent"); ("species", VStr "dogs");
                     ("category", VStr "digestive")];
     sr_text := "Nausea. Drooling and lip licking" |}.

(** What a search for dogs returns on the loaded installation. *)
Definition dogs : list SearchResult := [blood; vomiting; nausea].

(** A dataset whose top level is an array of entries. *)
Definition skin : string := "datasets/master_skin_dataset.json".

Definition skin_json : string :=
  Demo.dq "[{'symptom': 'Itching', 'description': 'Scratches a lot'}]".

Definition read_file (filename : string) : option string :=
  if String.eqb filename skin then Some skin_json
  else Demo.read_file filename.

(** The no-break space U+00A0, as its two bytes. *)
Definition nbsp : string :=
  String (ascii_of_nat 194) (String (ascii_of_nat 160) EmptyString).

(** The letter e with an acute accent, U+00E9, as its two bytes. *)
Definition e_acute : string :=
  String (ascii_of_nat 195) (String (ascii_of_nat 169) EmptyString).

(** [s * n] *)
Fixpoint times (n : nat) (s : string) : string :=
  match n with
  | O => EmptyString
  | S k => (s ++ times k s)%string
  end.

(** A request to the query handler. *)
Definition request : dict :=
  [ ("name", VStr " Bruno "); ("species", VStr "Dog");
    ("query", VStr "my dog has been vomiting since morning");
    ("age", VStr "3 years") ].

(** The class name of an exception, standing for its message. *)
Definition exn_text (e : app_exn) : string :=
  match e with
  | CoreError AttributeError => "AttributeError"
  | CoreError TypeError => "TypeError"
  | CoreError IndexError => "IndexError"
  | CoreError AssertionError => "AssertionError"
  | CoreError JSONDecodeError => "JSONDecodeError"
  | CoreError BoundaryError => "Exception"
  | KeyError => "KeyError"
  | ValueError => "ValueError"
  | FileNotFoundError => "FileNotFoundError"
  | RuntimeError => "RuntimeError"
  | RequestError => "BadRequest"
  end.

End Sample.

(** * Properties

    They hold whatever [str.lower] is: it is the variable [lower] of this
    part. *)

Section Properties.

(** [str.lower] *)
Variable lower : string -> string.



(** ** Strings *)

Ltac bool_facts :=
  repeat match goal with
         | H : (_ || _) = true |- _ =>
             apply orb_true_iff in H; destruct H as [H | H]
         | H : (_ && _) = true |- _ =>
             apply andb_true_iff in H; destruct H as [? H]
         | H : (_ <=? _)%nat = true |- _ => apply Nat.leb_le in H
         | H : (_ =? _)%nat = true |- _ => apply Nat.eqb_eq in H
         end.

Lemma not_visible (c : ascii) :
  (nat_of_ascii c <= 32 \/ 127 <= nat_of_ascii c)%nat ->
  PyStr.visible c = false.
Proof.
  intros H. unfold PyStr.visible. apply andb_false_iff.
  destruct H as [H | H]; [left | right]; apply Nat.leb_gt; lia.
Qed.

(** The bytes of a white-space character are not visible ASCII
    characters. *)
Lemma space_width_blank (s : string) :
  blank_head (PyStr.space_width s) s = true.
Proof.
  destruct s as [|a [|b [|c r]]]; unfold PyStr.space_width; cbv zeta;
    repeat match goal with
           | |- context [if ?b then _ else _] => destruct b eqn:?
           end;
    cbn [blank_head]; try reflexivity; bool_facts;
    rewrite ?(not_visible a), ?(not_visible b), ?(not_visible c) by lia;
    reflexivity.
Qed.

Lemma white_from_blank (s : string) :
  forall k, blank_head k s = true -> PyStr.white_from s k = true ->
            blank s = true.
Proof.
  induction s as [|a s IH]; intros k Hb Hw; [reflexivity | ].
  cbn [blank]. destruct k as [|k]; cbn [PyStr.white_from] in Hw.
  - pose proof (space_width_blank (String a s)) as Hs.
    destruct (PyStr.space_width (String a s)) as [|n]; [discriminate | ].
    cbn [blank_head] in Hs. apply andb_prop in Hs as [Ha Hs].
    rewrite Ha. exact (IH n Hs Hw).
  - cbn [blank_head] in Hb. apply andb_prop in Hb as [Ha Hb].
    rewrite Ha. exact (IH k Hb Hw).
Qed.

Lemma white_blank (s : string) : PyStr.white s = true -> blank s = true.
Proof.
  apply white_from_blank. destruct s; reflexivity.
Qed.

(** A text that starts with a visible character does not occur in a text
    without visible characters. *)
Lemma contains_blank (c : ascii) (t s : string) :
  PyStr.visible c = true ->
  blank s = true ->
  PyStr.contains (String c t) s = false.
Proof.
  intros Hc. induction s as [|a r IH]; simpl; intros H.
  - reflexivity.
  - apply andb_prop in H as [Ha Hr].
    rewrite (IH Hr), orb_false_r.
    destruct (ascii_dec c a) as [->|_]; [ | reflexivity].
    rewrite Hc in Ha. discriminate.
Qed.

Lemma join_single (sep s : string) : PyStr.join sep [s] = s.
Proof. reflexivity. Qed.

(** ** The query expander *)

Lemma expand_syns_app (ql term : string) (syns expanded : list string) :
  expand_syns ql term syns expanded
  = expanded ++
    map (fun syn => PyStr.replace ql term syn)
        (filter (fun syn => negb (PyStr.contains syn ql)) syns).
Proof.
  revert expanded. induction syns as [|syn rest IH]; intros expanded; simpl.
  - now rewrite app_nil_r.
  - rewrite IH. destruct (PyStr.contains syn ql); simpl.
    + reflexivity.
    + now rewrite <- app_assoc.
Qed.

Lemma expand_terms_app (ql : string) (table : list (string * list string))
                       (expanded : list string) :
  expand_terms ql table expanded
  = expanded ++
    flat_map
      (fun entry : string * list string =>
         let (term, synonyms) := entry in
         if PyStr.contains term ql
         then map (fun syn => PyStr.replace ql term syn)
                  (filter (fun syn => negb (PyStr.contains syn ql))
                          (firstn 2 synonyms))
         else [])
      table.
Proof.
  revert expanded.
  induction table as [|[term synonyms] rest IH]; intros expanded; simpl.
  - now rewrite app_nil_r.
  - rewrite IH. destruct (PyStr.contains term ql).
    + now rewrite expand_syns_app, <- app_assoc.
    + reflexivity.
Qed.

Lemma expanded_variants_spec (query : string) :
  expanded_variants lower query = query :: spec_variants lower query.
Proof.
  unfold expanded_variants, spec_variants.
  now rewrite expand_terms_app.
Qed.

Lemma spec_variants_white (query : string) :
  PyStr.white query = true -> lower query = query ->
  spec_variants lower query = [].
Proof.
  intros H Hl. apply white_blank in H. unfold spec_variants.
  rewrite Hl. unfold MEDICAL_SYNONYMS. cbn [flat_map].
  repeat (rewrite contains_blank; [ | reflexivity | exact H ]).
  reflexivity.
Qed.

(** C4. For every query, and whatever [str.lower] does to it, [expand_query]
    returns the original query joined by spaces with at most two variants:
    the first two, in table order, of the variants obtained by replacing a
    table term that occurs in the lower-cased query by one of its first two
    synonyms that does not occur in it. At most three variants are joined.
    An empty or white-space query, which [str.lower] leaves as it is, is
    returned as it is. *)
Theorem expand_query_contract (query : string) :
  expand_query lower query = expand_query_spec lower query /\
  (exists variants : list string,
      expand_query lower query = PyStr.join " " (query :: variants) /\
      variants = firstn 2 (spec_variants lower query) /\
      (length (query :: variants) <= 3)%nat) /\
  (PyStr.white query = true -> lower query = query ->
   expand_query lower query = query).
Proof.
  assert (E : expand_query lower query = expand_query_spec lower query).
  { unfold expand_query, expand_query_spec.
    now rewrite expanded_variants_spec. }
  split; [exact E | split].
  - exists (firstn 2 (spec_variants lower query)). repeat split.
    + exact E.
    + cbn [length]. apply le_n_S. apply firstn_le_length.
  - intros H Hl. rewrite E. unfold expand_query_spec.
    rewrite (spec_variants_white query H Hl). apply join_single.
Qed.

(** ** Sorting and slicing *)

Section SortFacts.
Context {A : Type} (key : A -> Q).

Lemma insert_desc_In (x y : A) (l : list A) :
  In y (insert_desc key x l) <-> y = x \/ In y l.
Proof.
  induction l as [|z r IH]; simpl.
  - intuition.
  - destruct (Qle_bool (key z) (key x)); simpl; [intuition | ].
    rewrite IH. intuition.
Qed.

Lemma sort_desc_In (y : A) (l : list A) :
  In y (sort_desc key l) <-> In y l.
Proof.
  induction l as [|x r IH]; simpl; [tauto | ].
  rewrite insert_desc_In, IH. intuition.
Qed.

Lemma insert_desc_sorted (x : A) (l : list A) :
  StronglySorted (before key) l ->
  StronglySorted (before key) (insert_desc key x l).
Proof.
  induction 1 as [|z r Hs IH Hz]; simpl.
  - constructor; constructor.
  - destruct (Qle_bool (key z) (key x)) eqn:E.
    + apply Qle_bool_iff in E.
      constructor; [constructor; assumption | ].
      constructor; [exact E | ].
      rewrite Forall_forall in Hz |- *. intros w Hw.
      unfold before in *. eapply Qle_trans; [apply Hz, Hw | exact E].
    + constructor; [exact IH | ].
      rewrite Forall_forall in Hz |- *. intros w Hw.
      apply insert_desc_In in Hw as [-> | Hw]; [ | auto].
      unfold before. apply Qlt_le_weak, Qnot_le_lt.
      intros Hle. apply Qle_bool_iff in Hle. congruence.
Qed.

Lemma sort_desc_sorted (l : list A) :
  StronglySorted (before key) (sort_desc key l).
Proof.
  induction l as [|x r IH]; simpl.
  - constructor.
  - apply insert_desc_sorted, IH.
Qed.

Lemma sorted_nth (l : list A) :
  StronglySorted (before key) l ->
  forall i j a b,
    (i < j)%nat -> nth_error l i = Some a -> nth_error l j = Some b ->
    before key a b.
Proof.
  induction 1 as [|z r Hs IH Hz]; intros i j a b Hij Ha Hb.
  - destruct i; discriminate.
  - destruct j as [|j]; [lia | ]. simpl in Hb.
    destruct i as [|i]; simpl in Ha.
    + injection Ha as <-. rewrite Forall_forall in Hz.
      apply Hz. eapply nth_error_In, Hb.
    + apply (IH i j); [lia | assumption | assumption].
Qed.
End SortFacts.

Lemma slice_to_prefix {A : Type} (k : Z) (l : list A) :
  exists n, slice_to k l = firstn n l.
Proof.
  unfold slice_to. destruct (0 <=? k)%Z; eexists; reflexivity.
Qed.

Lemma nth_error_firstn_some {A : Type} (n : nat) (l : list A) (j : nat) (a : A) :
  nth_error (firstn n l) j = Some a ->
  (j < n)%nat /\ nth_error l j = Some a.
Proof.
  revert l j. induction n as [|n IH]; intros l j H.
  - simpl in H. destruct j; discriminate.
  - destruct l as [|x r]; [destruct j; discriminate | ].
    destruct j as [|j]; simpl in *.
    + split; [lia | assumption].
    + apply IH in H as [? ?]. split; [lia | assumption].
Qed.

Lemma nth_error_firstn_lt {A : Type} (n : nat) (l : list A) (i : nat) :
  (i < n)%nat -> nth_error (firstn n l) i = nth_error l i.
Proof.
  revert l i. induction n as [|n IH]; intros l i H; [lia | ].
  destruct l as [|x r]; [destruct i; reflexivity | ].
  destruct i as [|i]; simpl; [reflexivity | ].
  apply IH. lia.
Qed.

Lemma In_firstn {A : Type} (n : nat) (l : list A) (a : A) :
  In a (firstn n l) -> In a l.
Proof.
  intros H. rewrite <- (firstn_skipn n l). apply in_or_app. now left.
Qed.

(** ** The loop of [search] *)

Lemma item_at_Ok {A : Type} (l : list A) (i : nat) (a : A) :
  item_at l i = Ok a <-> nth_error l i = Some a.
Proof.
  unfold item_at. destruct (nth_error l i); split; congruence.
Qed.

Lemma search_loop_sound (st : State) (species : option string) :
  forall cands acc results,
    search_loop lower st species cands acc = Ok results ->
    exists new,
      results = acc ++ new /\
      forall r, In r new -> exists c, In c cands /\ admits lower st species c r.
Proof.
  induction cands as [|[raw idx] rest IH]; intros acc results H; simpl in H.
  - injection H as <-. exists []. split; [now rewrite app_nil_r | intros r []].
  - destruct (Qlt_bool raw MIN_SIMILARITY) eqn:Hraw.
    + destruct (IH _ _ H) as (new & -> & Hnew). exists new. split; [reflexivity | ].
      intros r Hr. destruct (Hnew r Hr) as (c & Hc & Hadm).
      exists c. split; [now right | exact Hadm].
    + unfold bind in H.
      destruct (item_at (metadata st) idx) as [meta|] eqn:Hmeta; [ | discriminate].
      destruct (species_rejects lower species meta) as [[|]|] eqn:Hsp; [ | | discriminate].
      * destruct (IH _ _ H) as (new & -> & Hnew). exists new.
        split; [reflexivity | ].
        intros r Hr. destruct (Hnew r Hr) as (c & Hc & Hadm).
        exists c. split; [now right | exact Hadm].
      * destruct (boost_of (dict_get "severity" (VStr "routine") meta))
          as [boost|] eqn:Hboost; [ | discriminate].
        destruct (item_at (documents st) idx) as [text|] eqn:Htext; [ | discriminate].
        destruct (IH _ _ H) as (new & -> & Hnew).
        eexists (_ :: new). split; [now rewrite <- app_assoc | ].
        intros r [<- | Hr].
        -- exists (raw, idx). split; [now left | ].
           split; [exact Hraw | ].
           exists meta, boost, text. simpl.
           apply item_at_Ok in Hmeta, Htext. auto.
        -- destruct (Hnew r Hr) as (c & Hc & Hadm).
           exists c. split; [now right | exact Hadm].
Qed.

Lemma search_loop_complete (st : State) (species : option string) :
  forall cands acc results c r,
    search_loop lower st species cands acc = Ok results ->
    In c cands -> admits lower st species c r -> In r results.
Proof.
  induction cands as [|[raw idx] rest IH]; intros acc results c r H Hc Hadm;
    [destruct Hc | ].
  simpl in H. destruct Hc as [<- | Hc].
  - destruct Hadm as (Hraw & meta & boost & text & Hm & Hsp & Hb & Ht & ->).
    simpl in *. rewrite Hraw in H. unfold bind in H.
    apply item_at_Ok in Hm, Ht. rewrite Hm, Hsp, Hb, Ht in H.
    destruct (search_loop_sound _ _ _ _ _ H) as (new & -> & _).
    apply in_or_app. left. apply in_or_app. right. now left.
  - destruct (Qlt_bool raw MIN_SIMILARITY); [now apply (IH _ _ c r H) | ].
    unfold bind in H.
    destruct (item_at (metadata st) idx) as [meta|]; [ | discriminate].
    destruct (species_rejects lower species meta) as [[|]|]; [ | | discriminate].
    + now apply (IH _ _ c r H).
    + destruct (boost_of _); [ | discriminate].
      destruct (item_at (documents st) idx); [ | discriminate].
      now apply (IH _ _ c r H).
Qed.

(** Candidates below the threshold leave no trace: the loop does on the
    whole list what it does on the candidates that reach the threshold. *)
Lemma search_loop_discards (st : State) (species : option string) :
  forall cands acc,
    search_loop lower st species (above_threshold cands) acc
    = search_loop lower st species cands acc.
Proof.
  induction cands as [|[raw idx] rest IH]; intros acc; [reflexivity | ].
  unfold above_threshold in *. simpl.
  destruct (Qlt_bool raw MIN_SIMILARITY) eqn:Hraw; simpl.
  - apply IH.
  - rewrite Hraw. unfold bind.
    destruct (item_at (metadata st) idx) as [meta|]; [ | reflexivity].
    destruct (species_rejects lower species meta) as [[|]|]; [apply IH | | reflexivity].
    destruct (boost_of _); [ | reflexivity].
    destruct (item_at (documents st) idx); [apply IH | reflexivity].
Qed.

(** What [search] does on a loaded state, step by step. *)
Lemma search_inv (encode : string -> vec) (st : State) (query : string)
                 (species : option string) (top_k : Z)
                 (out : list SearchResult) :
  search lower encode st query species top_k = Ok out ->
  loaded st = true ->
  exists ix cands results,
    index st = Some ix /\
    index_search ix (encode (expand_query lower query))
      (Z.min (top_k * 2) (Z.of_nat (length (documents st)))) = Ok cands /\
    search_loop lower st species cands [] = Ok results /\
    out = slice_to top_k (sort_desc sr_score results).
Proof.
  unfold search. intros H Hl. rewrite Hl in H. simpl in H.
  destruct (index st) as [ix|]; [ | discriminate].
  unfold bind in H.
  destruct (index_search ix _ _) as [cands|] eqn:Hc; [ | discriminate].
  destruct (search_loop lower st species cands []) as [results|] eqn:Hr; [ | discriminate].
  injection H as <-. exists ix, cands, results. auto.
Qed.

Lemma search_unloaded (encode : string -> vec) (st : State) (query : string)
                      (species : option string) (top_k : Z) :
  loaded st = false -> search lower encode st query species top_k = Ok [].
Proof.
  unfold search. now intros ->.
Qed.

(** ** The ranker *)

Lemma threshold_reached (raw : Q) :
  Qlt_bool raw MIN_SIMILARITY = false <-> (MIN_SIMILARITY <= raw)%Q.
Proof.
  unfold Qlt_bool. rewrite negb_false_iff. apply Qle_bool_iff.
Qed.

Lemma search_result_origin (encode : string -> vec) (st : State)
      (query : string) (species : option string) (top_k : Z)
      (out : list SearchResult) (r : SearchResult) :
  search lower encode st query species top_k = Ok out ->
  In r out ->
  exists c, candidate lower encode st query top_k c /\ admits lower st species c r.
Proof.
  intros H Hr. destruct (loaded st) eqn:Hl.
  - destruct (search_inv _ _ _ _ _ _ H Hl) as (ix & cands & results & Hix & Hc & Hloop & ->).
    destruct (slice_to_prefix top_k (sort_desc sr_score results)) as [n En].
    rewrite En in Hr. apply In_firstn, sort_desc_In in Hr.
    destruct (search_loop_sound _ _ _ _ _ Hloop) as (new & -> & Hnew).
    destruct (Hnew r Hr) as (c & Hin & Hadm).
    exists c. split; [ | exact Hadm]. exists ix, cands. auto.
  - rewrite (search_unloaded encode st query species top_k Hl) in H.
    injection H as <-. destruct Hr.
Qed.

(** C8. With a species filter set, every entry of the list [search] returns
    has a [species] field that is a string equal to the filter when both are
    lower-cased. The filter is not empty, and so is not the empty text once
    lower-cased either: [str.lower] turns only the empty text into the
    empty text. *)
Theorem species_filter_correct (encode : string -> vec) (st : State)
    (query sp : string) (top_k : Z) (out : list SearchResult) :
  sp <> EmptyString ->
  lower sp <> lower EmptyString ->
  search lower encode st query (Some sp) top_k = Ok out ->
  forall r, In r out ->
    exists s,
      dict_lookup "species" (sr_metadata r) = Some (VStr s) /\
      lower s = lower sp.
Proof.
  intros Hsp Hlow H r Hr.
  destruct (search_result_origin _ _ _ _ _ _ _ H Hr) as (c & _ & Hadm).
  destruct Hadm as (_ & meta & boost & text & _ & Hrej & _ & _ & ->). simpl.
  destruct sp as [|a sp']; [congruence | ].
  unfold species_rejects, dict_get, bind in Hrej.
  destruct (dict_lookup "species" meta) as [v|].
  - destruct v; simpl in Hrej; try discriminate.
    injection Hrej as Hrej. apply negb_false_iff, String.eqb_eq in Hrej.
    eexists. split; [reflexivity | exact Hrej].
  - simpl in Hrej. injection Hrej as Hrej.
    apply negb_false_iff, String.eqb_eq in Hrej. congruence.
Qed.

(** C9. Every entry of the list [search] returns comes from a candidate of
    the index whose raw score is at least [MIN_SIMILARITY]; its score is that
    raw score times the boost of its severity. Candidates whose raw score is
    below the threshold are discarded: the loop gives what it gives on the
    other candidates alone. *)
Theorem threshold_property (encode : string -> vec) (st : State)
    (query : string) (species : option string) (top_k : Z)
    (out : list SearchResult) :
  search lower encode st query species top_k = Ok out ->
  (forall r, In r out ->
     exists raw idx meta boost,
       candidate lower encode st query top_k (raw, idx) /\
       (MIN_SIMILARITY <= raw)%Q /\
       nth_error (metadata st) idx = Some meta /\
       boost_of (dict_get "severity" (VStr "routine") meta) = Ok boost /\
       sr_metadata r = meta /\
       sr_score r = raw * boost) /\
  (forall cands results,
     search_loop lower st species (above_threshold cands) results
     = search_loop lower st species cands results).
Proof.
  intros H. split; [ | apply search_loop_discards].
  intros r Hr.
  destruct (search_result_origin _ _ _ _ _ _ _ H Hr) as ([raw idx] & Hc & Hadm).
  destruct Hadm as (Hraw & meta & boost & text & Hm & _ & Hb & _ & ->).
  simpl in *. exists raw, idx, meta, boost.
  apply threshold_reached in Hraw.
  repeat split; solve [assumption | reflexivity].
Qed.

Lemma candidate_unique (encode : string -> vec) (st : State) (query : string)
      (top_k : Z) (c : Q * nat) (ix : Index) (cands : list (Q * nat)) :
  candidate lower encode st query top_k c ->
  index st = Some ix ->
  index_search ix (encode (expand_query lower query))
    (Z.min (top_k * 2) (Z.of_nat (length (documents st)))) = Ok cands ->
  In c cands.
Proof.
  intros (ix' & cands' & Hix' & Hc' & Hin) Hix Hc.
  rewrite Hix in Hix'. injection Hix' as <-.
  rewrite Hc in Hc'. injection Hc' as <-. exact Hin.
Qed.

Lemma boost_strict (s : Q) :
  (MIN_SIMILARITY <= s)%Q -> (s * 1 < s * (3 # 2))%Q.
Proof.
  unfold MIN_SIMILARITY, Qle, Qlt. destruct s as [n d]. simpl. nia.
Qed.

(** C7. Two candidates of a search with the same raw score, at or above the
    threshold and passing the species filter, one of severity [emergency] and
    one of severity [routine]: the first is entered with the raw score times
    1.5 and the second with the raw score times 1.0, both entries are in the
    list that is sorted, and wherever the routine entry stands in the list
    returned, the emergency entry stands at an earlier position. *)
Theorem severity_ordering (encode : string -> vec) (st : State)
    (query : string) (species : option string) (top_k : Z)
    (out : list SearchResult)
    (s : Q) (i1 i2 : nat) (m1 m2 : dict) (t1 t2 : string) :
  loaded st = true ->
  search lower encode st query species top_k = Ok out ->
  candidate lower encode st query top_k (s, i1) ->
  candidate lower encode st query top_k (s, i2) ->
  (MIN_SIMILARITY <= s)%Q ->
  nth_error (metadata st) i1 = Some m1 ->
  nth_error (documents st) i1 = Some t1 ->
  nth_error (metadata st) i2 = Some m2 ->
  nth_error (documents st) i2 = Some t2 ->
  species_rejects lower species m1 = Ok false ->
  species_rejects lower species m2 = Ok false ->
  dict_get "severity" (VStr "routine") m1 = VStr "emergency" ->
  dict_get "severity" (VStr "routine") m2 = VStr "routine" ->
  let r1 := {| sr_score := s * (3 # 2); sr_metadata := m1; sr_text := t1 |} in
  let r2 := {| sr_score := s * 1; sr_metadata := m2; sr_text := t2 |} in
  (sr_score r2 < sr_score r1)%Q /\
  (exists results,
      out = slice_to top_k (sort_desc sr_score results) /\
      In r1 results /\ In r2 results) /\
  (forall j, nth_error out j = Some r2 ->
     exists i, (i < j)%nat /\ nth_error out i = Some r1).
Proof.
  intros Hl H Hc1 Hc2 Hs Hm1 Ht1 Hm2 Ht2 Hsp1 Hsp2 Hsev1 Hsev2 r1 r2.
  destruct (search_inv _ _ _ _ _ _ H Hl)
    as (ix & cands & results & Hix & Hc & Hloop & ->).
  pose proof (candidate_unique _ _ _ _ _ _ _ Hc1 Hix Hc) as Hin1.
  pose proof (candidate_unique _ _ _ _ _ _ _ Hc2 Hix Hc) as Hin2.
  assert (Hlt : (sr_score r2 < sr_score r1)%Q) by (apply boost_strict, Hs).
  assert (Hr1 : In r1 results).
  { apply (search_loop_complete _ _ _ _ _ (s, i1) r1 Hloop Hin1).
    split; [now apply threshold_reached | ].
    exists m1, (3 # 2), t1. simpl. rewrite Hsev1. auto. }
  assert (Hr2 : In r2 results).
  { apply (search_loop_complete _ _ _ _ _ (s, i2) r2 Hloop Hin2).
    split; [now apply threshold_reached | ].
    exists m2, 1, t2. simpl. rewrite Hsev2. auto. }
  split; [exact Hlt | split].
  - exists results. auto.
  - intros j Hj.
    destruct (slice_to_prefix top_k (sort_desc sr_score results)) as [n En].
    rewrite En in *.
    apply nth_error_firstn_some in Hj as [Hjn Hj].
    apply (sort_desc_In sr_score) in Hr1.
    apply In_nth_error in Hr1 as [i Hi].
    pose proof (sort_desc_sorted sr_score results) as Hsorted.
    destruct (lt_eq_lt_dec i j) as [[Hij | ->] | Hji].
    + exists i. split; [exact Hij | ].
      rewrite nth_error_firstn_lt by lia. exact Hi.
    + assert (E : r1 = r2) by congruence.
      apply (f_equal sr_score) in E. unfold r1, r2 in E, Hlt. simpl in E, Hlt.
      rewrite E in Hlt. exfalso. exact (Qlt_irrefl _ Hlt).
    + pose proof (sorted_nth sr_score _ Hsorted j i r2 r1 Hji Hj Hi) as Hb.
      unfold before in Hb. exfalso. exact (Qlt_not_le _ _ Hlt Hb).
Qed.

(** ** The response synthesizer *)

Section Synthesizer.
Variable py_str : value -> string.
Variable json_loads : string -> option value.

(** The two ways out of [generate_response]: the decoded object with the
    metadata set, or the fallback, with the metadata set only when the
    text had no brace-delimited part. *)
Lemma generate_response_cases (pd : dict) (query : string)
      (matched : list SearchResult) (now : string) (reply : result string) :
  let e := detect_emergency lower query in
  let md := query_metadata now matched e in
  match decoded json_loads reply with
  | Some d =>
      generate_response lower py_str json_loads pd query matched now reply
      = dict_set "query_metadata" md d
  | None =>
      generate_response lower py_str json_loads pd query matched now reply
      = _create_fallback_response py_str pd matched e \/
      generate_response lower py_str json_loads pd query matched now reply
      = dict_set "query_metadata" md
          (_create_fallback_response py_str pd matched e)
  end.
Proof.
  unfold generate_response, decoded, bind.
  destruct reply as [text|err]; simpl; [ | now left].
  destruct (json_match text) as [group|]; [ | now right].
  destruct (json_loads group) as [[]|]; simpl; auto.
Qed.

Lemma fallback_has_content_keys (pd : dict) (matched : list SearchResult)
      (e : bool) (md : value) :
  has_content_keys (_create_fallback_response py_str pd matched e) = true /\
  has_content_keys
    (dict_set "query_metadata" md
       (_create_fallback_response py_str pd matched e)) = true.
Proof.
  destruct matched; split; reflexivity.
Qed.

Lemma fallback_lookup_tagged (pd : dict) (matched : list SearchResult)
      (e : bool) (md : value) (k : string) :
  In k CONTENT_KEYS ->
  dict_lookup k
    (dict_set "query_metadata" md
       (_create_fallback_response py_str pd matched e))
  = dict_lookup k (_create_fallback_response py_str pd matched e).
Proof.
  unfold CONTENT_KEYS. intros H. simpl in H.
  repeat (destruct H as [<- | H]; [destruct matched; reflexivity | ]).
  destruct H.
Qed.

Lemma fallback_no_metadata (pd : dict) (matched : list SearchResult)
      (e : bool) :
  dict_mem "query_metadata" (_create_fallback_response py_str pd matched e)
  = false.
Proof.
  destruct matched; reflexivity.
Qed.

Lemma dict_lookup_set (k : string) (v : value) (d : dict) :
  dict_lookup k (dict_set k v d) = Some v.
Proof.
  induction d as [|[k' v'] r IH]; cbn [dict_set dict_lookup].
  - now rewrite String.eqb_refl.
  - destruct (String.eqb k k') eqn:E; cbn [dict_lookup].
    + now rewrite String.eqb_refl.
    + now rewrite E.
Qed.
End Synthesizer.

(** The paths through the [try] block that reach the assignment of
    [query_metadata]: a decoded object, and a text without a brace-delimited
    part. *)
Lemma metadata_attached_in_try (py_str : value -> string)
      (json_loads : string -> option value) (pd : dict) (query : string)
      (matched : list SearchResult) (now : string) (text : string) :
  (exists d, decoded json_loads (Ok text) = Some d) \/ json_match text = None ->
  dict_lookup "query_metadata"
    (generate_response lower py_str json_loads pd query matched now (Ok text))
  = Some (query_metadata now matched (detect_emergency lower query)).
Proof.
  intros [[d Hd] | Hno].
  - pose proof (generate_response_cases py_str json_loads pd query matched
                  now (Ok text)) as H.
    rewrite Hd in H. simpl in H. rewrite H. apply dict_lookup_set.
  - unfold generate_response, bind. rewrite Hno. apply dict_lookup_set.
Qed.

(** C1 (not met by the code). A response carries [query_metadata] when it is
    built inside the [try] block; when the generative model raises, the
    [except] branch returns the fallback as it is, and the response has no
    [query_metadata] key. *)
Theorem exception_path_drops_query_metadata (py_str : value -> string)
    (json_loads : string -> option value) (pd : dict) (query : string)
    (matched : list SearchResult) (now : string) (err : exn) :
  generate_response lower py_str json_loads pd query matched now (Raise err)
  = _create_fallback_response py_str pd matched (detect_emergency lower query) /\
  dict_lookup "query_metadata"
    (generate_response lower py_str json_loads pd query matched now (Raise err))
  = None.
Proof.
  split; [reflexivity | ].
  change (generate_response lower py_str json_loads pd query matched now (Raise err))
    with (_create_fallback_response py_str pd matched (detect_emergency lower query)).
  pose proof (fallback_no_metadata py_str pd matched (detect_emergency lower query)) as H.
  unfold dict_mem in H.
  destruct (dict_lookup "query_metadata" _); [discriminate | reflexivity].
Qed.

(** C5. With a non-empty match list, when the generative model raises or its
    output does not decode to an object, the response is the fallback built
    from the metadata of the first match alone (with [query_metadata] set on
    it when the text had no brace-delimited part): confidence [medium],
    urgency the severity of that match or [routine], service recommendation
    the one of that match or [video_consult]. *)
Theorem fallback_from_top_match (py_str : value -> string)
    (json_loads : string -> option value) (pd : dict) (query : string)
    (first : SearchResult) (rest : list SearchResult)
    (now : string) (reply : result string) :
  decoded json_loads reply = None ->
  let top := sr_metadata first in
  let r := generate_response lower py_str json_loads pd query (first :: rest) now reply in
  let derived := _create_fallback_response py_str pd [first] false in
  (r = derived \/
   r = dict_set "query_metadata"
         (query_metadata now (first :: rest) (detect_emergency lower query)) derived) /\
  dict_lookup "confidence" r = Some (VStr "medium") /\
  dict_lookup "urgency_level" r
  = Some (dict_get "severity" (VStr "routine") top) /\
  dict_lookup "service_recommendation" r
  = Some (dict_get "service_recommendation" (VStr "video_consult") top).
Proof.
  intros Hd top r derived.
  pose proof (generate_response_cases py_str json_loads pd query
                (first :: rest) now reply) as H.
  rewrite Hd in H. simpl in H. fold r in H.
  change (_create_fallback_response py_str pd (first :: rest)
            (detect_emergency lower query)) with derived in H.
  split; [exact H | ].
  destruct H as [-> | ->]; repeat split; reflexivity.
Qed.

(** C6. With an empty match list, when the generative model raises or its
    output does not decode to an object, the response is the fixed template
    (with [query_metadata] set on it when the text had no brace-delimited
    part): confidence [low], urgency [urgent] for an emergency query and
    [routine] otherwise, service recommendation [in_clinic] for an emergency
    query and [video_consult] otherwise. Apart from the pet's name and the
    emergency flag, nothing enters the template. *)
Theorem no_match_fallback (py_str : value -> string)
    (json_loads : string -> option value) (pd : dict) (query : string)
    (now : string) (reply : result string) :
  decoded json_loads reply = None ->
  let e := detect_emergency lower query in
  let r := generate_response lower py_str json_loads pd query [] now reply in
  let template := _create_fallback_response py_str pd [] e in
  (r = template \/
   r = dict_set "query_metadata" (query_metadata now [] e) template) /\
  dict_lookup "confidence" r = Some (VStr "low") /\
  dict_lookup "urgency_level" r
  = Some (VStr (if e then "urgent" else "routine")) /\
  dict_lookup "service_recommendation" r
  = Some (VStr (if e then "in_clinic" else "video_consult")) /\
  (forall py_str' pd',
      dict_get "name" (VStr "Your pet") pd' = dict_get "name" (VStr "Your pet") pd ->
      _create_fallback_response py_str' pd' [] e = template).
Proof.
  intros Hd e r template.
  pose proof (generate_response_cases py_str json_loads pd query [] now reply) as H.
  rewrite Hd in H. simpl in H. fold e r template in H.
  split; [exact H | ].
  assert (Hname : forall py_str' pd',
             dict_get "name" (VStr "Your pet") pd'
             = dict_get "name" (VStr "Your pet") pd ->
             _create_fallback_response py_str' pd' [] e = template).
  { intros py_str' pd' Hn. unfold template. simpl. now rewrite Hn. }
  destruct H as [-> | ->]; repeat split; solve [reflexivity | exact Hname].
Qed.

(** ** The pipeline does not raise *)

Lemma scores_from_range (q : vec) (vs : list vec) (pos : nat) (c : Q * nat) :
  In c (scores_from q vs pos) -> (pos <= snd c < pos + length vs)%nat.
Proof.
  revert pos. induction vs as [|v r IH]; intros pos H; simpl in *.
  - destruct H.
  - destruct H as [<- | H]; simpl; [lia | ].
    apply IH in H. lia.
Qed.

Lemma index_search_total (ix : Index) (q : vec) (k : Z) :
  length q = dim ix -> (0 < k)%Z ->
  exists cands,
    index_search ix q k = Ok cands /\
    forall c, In c cands -> (snd c < ntotal ix)%nat.
Proof.
  intros Hd Hk. unfold index_search.
  rewrite Hd, Nat.eqb_refl. simpl.
  destruct (k <=? 0)%Z eqn:E; [apply Z.leb_le in E; lia | ].
  eexists. split; [reflexivity | ].
  intros c Hc. apply In_firstn, sort_desc_In, scores_from_range in Hc.
  unfold ntotal. lia.
Qed.

Lemma meta_ok_species (meta : dict) (species : option string) :
  meta_ok meta = true -> exists b, species_rejects lower species meta = Ok b.
Proof.
  unfold meta_ok, species_rejects. intros H. apply andb_prop in H as [H _].
  destruct species as [[|a sp]|]; try (eexists; reflexivity).
  destruct (dict_get "species" (VStr EmptyString) meta); try discriminate.
  eexists. reflexivity.
Qed.

Lemma meta_ok_boost (meta : dict) :
  meta_ok meta = true ->
  exists b, boost_of (dict_get "severity" (VStr "routine") meta) = Ok b.
Proof.
  unfold meta_ok. intros H. apply andb_prop in H as [_ H].
  destruct (dict_get "severity" (VStr "routine") meta); try discriminate.
  eexists. reflexivity.
Qed.

Lemma search_loop_total (st : State) (species : option string) :
  corpus_ok st = true ->
  length (metadata st) = length (documents st) ->
  forall cands acc,
    (forall c, In c cands -> (snd c < length (documents st))%nat) ->
    exists results, search_loop lower st species cands acc = Ok results.
Proof.
  intros Hok Hlen. induction cands as [|[raw idx] rest IH]; intros acc Hr; simpl.
  - eexists. reflexivity.
  - assert (Hrest : forall c, In c rest -> (snd c < length (documents st))%nat)
      by (intros c Hc; apply Hr; now right).
    destruct (Qlt_bool raw MIN_SIMILARITY); [now apply IH | ].
    assert (Hidx : (idx < length (documents st))%nat)
      by (apply (Hr (raw, idx)); now left).
    unfold bind, item_at.
    destruct (nth_error (metadata st) idx) as [meta|] eqn:Hm;
      [ | apply nth_error_None in Hm; lia].
    assert (Hmeta : meta_ok meta = true).
    { unfold corpus_ok in Hok. rewrite forallb_forall in Hok.
      apply Hok. eapply nth_error_In, Hm. }
    destruct (meta_ok_species meta species Hmeta) as [[|] ->]; [now apply IH | ].
    destruct (meta_ok_boost meta Hmeta) as [b ->].
    destruct (nth_error (documents st) idx) as [text|] eqn:Ht;
      [ | apply nth_error_None in Ht; lia].
    now apply IH.
Qed.

(** On a consistent state over a corpus of the data model, with an embedder
    of one dimension, [search] with the default [top_k] returns a list, made
    of entries of the corpus. *)
Lemma search_total (encode : string -> vec) (n : nat) (st : State)
      (query : string) (species : option string) :
  (forall s, length (encode s) = n) ->
  (loaded st = true -> index_covers encode st) ->
  corpus_ok st = true ->
  exists out,
    search lower encode st query species TOP_K = Ok out /\
    forall r, In r out -> meta_ok (sr_metadata r) = true.
Proof.
  intros Hdim Hcov Hok.
  assert (Hmeta : forall out,
             search lower encode st query species TOP_K = Ok out ->
             forall r, In r out -> meta_ok (sr_metadata r) = true).
  { intros out H r Hr.
    destruct (search_result_origin _ _ _ _ _ _ _ H Hr) as (c & _ & Hadm).
    destruct Hadm as (_ & meta & boost & text & Hm & _ & _ & _ & ->). simpl.
    unfold corpus_ok in Hok. rewrite forallb_forall in Hok.
    apply Hok. eapply nth_error_In, Hm. }
  destruct (search lower encode st query species TOP_K) as [out|err] eqn:E.
  - exists out. split; [reflexivity | now apply Hmeta].
  - exfalso. unfold search in E. destruct (loaded st) eqn:Hl; [ | discriminate].
    destruct (Hcov eq_refl) as (ix & Hix & Hxb & Hd & Hn & Hlen & Hne).
    cbn [negb] in E. rewrite Hix in E. unfold bind in E.
    destruct (index_search_total ix (encode (expand_query lower query))
                (Z.min (TOP_K * 2) (Z.of_nat (length (documents st)))))
      as (cands & Hc & Hrange).
    + rewrite Hd. destruct (documents st) as [|doc docs]; [congruence | ].
      simpl. now rewrite !Hdim.
    + destruct (documents st); [congruence | ]. unfold TOP_K. simpl length. lia.
    + rewrite Hc in E.
      destruct (search_loop_total st species Hok Hlen cands [])
        as [results Hres].
      * intros c Hin. rewrite <- Hn. now apply Hrange.
      * rewrite Hres in E. discriminate.
Qed.

(** C2, amended. On a consistent state over a corpus of the data model, with
    pet details whose species is a string, [process_query] does not raise,
    whatever the generative model does. When the model raises or its output
    does not decode to an object, the response is a fallback with every
    content key present and an urgency among the three levels; when the
    output decodes to an object, the response is that object with
    [query_metadata] set. *)
Theorem process_query_total (encode : string -> vec) (py_str : value -> string)
    (json_loads : string -> option value) (n : nat) (st : State)
    (pd : dict) (query now : string) (reply : result string) :
  (forall s, length (encode s) = n) ->
  (loaded st = true -> index_covers encode st) ->
  corpus_ok st = true ->
  is_str (dict_get "species" (VStr EmptyString) pd) = true ->
  exists r,
    process_query lower encode py_str json_loads st pd query now reply = Ok r /\
    match decoded json_loads reply with
    | Some d => exists md, r = dict_set "query_metadata" md d
    | None =>
        has_content_keys r = true /\
        exists level,
          dict_lookup "urgency_level" r = Some level /\ is_level level = true
    end.
Proof.
  intros Hdim Hcov Hok Hpet. unfold process_query.
  destruct (dict_get "species" (VStr EmptyString) pd) as [| | | |sp| |];
    try discriminate Hpet.
  cbn [value_lower bind].
  destruct (search_total encode n st query (species_filter (lower sp))
              Hdim Hcov Hok) as (matches & -> & Hmeta).
  eexists. split; [reflexivity | ].
  pose proof (generate_response_cases py_str json_loads pd query matches
                now reply) as H.
  destruct (decoded json_loads reply) as [d|]; simpl in H.
  - eexists. exact H.
  - destruct (fallback_has_content_keys py_str pd matches
                (detect_emergency lower query)
                (query_metadata now matches (detect_emergency lower query)))
      as [Hk1 Hk2].
    assert (Hlevel : exists level,
               dict_lookup "urgency_level"
                 (_create_fallback_response py_str pd matches
                    (detect_emergency lower query)) = Some level /\
               is_level level = true).
    { destruct matches as [|first rest]; simpl.
      - eexists. split; [reflexivity | ].
        destruct (detect_emergency lower query); reflexivity.
      - eexists. split; [reflexivity | ].
        specialize (Hmeta first (or_introl eq_refl)).
        unfold meta_ok in Hmeta. now apply andb_prop in Hmeta as [_ ?]. }
    destruct H as [-> | ->]; split; try assumption.
    rewrite fallback_lookup_tagged; [exact Hlevel | ].
    unfold CONTENT_KEYS. simpl. tauto.
Qed.

(** C3, amended. When nothing is loaded, [search] returns the empty list for
    every query, species filter and [top_k], and [process_query], given pet
    details whose species is a string, returns: the no-match template, of
    confidence [low], when the generative model raises or its output does
    not decode to an object (with [query_metadata] set on it when the text
    had no brace-delimited part); and the decoded object with
    [query_metadata] set otherwise. *)
Theorem empty_corpus (encode : string -> vec) (py_str : value -> string)
    (json_loads : string -> option value) (st : State)
    (pd : dict) (query now : string) (reply : result string) :
  loaded st = false ->
  (forall species top_k, search lower encode st query species top_k = Ok []) /\
  (is_str (dict_get "species" (VStr EmptyString) pd) = true ->
   let e := detect_emergency lower query in
   let template := _create_fallback_response py_str pd [] e in
   exists r,
     process_query lower encode py_str json_loads st pd query now reply = Ok r /\
     match decoded json_loads reply with
     | Some d => r = dict_set "query_metadata" (query_metadata now [] e) d
     | None =>
         (r = template \/
          r = dict_set "query_metadata" (query_metadata now [] e) template) /\
         dict_lookup "confidence" r = Some (VStr "low")
     end).
Proof.
  intros Hl. split.
  - intros species top_k. now apply search_unloaded.
  - intros Hpet e template. unfold process_query.
    destruct (dict_get "species" (VStr EmptyString) pd) as [| | | |sp| |];
      try discriminate Hpet.
    cbn [value_lower bind].
    rewrite (search_unloaded encode st query _ TOP_K Hl).
    eexists. split; [reflexivity | ].
    pose proof (generate_response_cases py_str json_loads pd query [] now reply)
      as H.
    destruct (decoded json_loads reply) as [d|] eqn:Hd; simpl in H.
    + exact H.
    + split; [exact H | ].
      destruct H as [-> | ->]; reflexivity.
Qed.

(** ** Loading *)

Section Loading.
Variable encode : string -> vec.
Variable py_str : value -> string.
Variable read_file : string -> option string.
Variable json_loads : string -> option value.

Lemma load_entries_lengths (category : string) (entries : list value) :
  forall texts metas,
    length metas = length texts ->
    length (snd (load_entries py_str category entries texts metas))
    = length (fst (load_entries py_str category entries texts metas)).
Proof.
  induction entries as [|entry rest IH]; intros texts metas H; simpl.
  - exact H.
  - destruct entry; try exact H.
    apply IH. rewrite !length_app. simpl. lia.
Qed.

Lemma load_file_lengths (filename : string) (texts : list string)
      (metas : list dict) :
  length metas = length texts ->
  length (snd (load_file py_str read_file json_loads filename texts metas))
  = length (fst (load_file py_str read_file json_loads filename texts metas)).
Proof.
  intros H. unfold load_file.
  destruct (read_file filename) as [content|]; [ | exact H].
  destruct (json_loads content) as [[]|]; try exact H.
  destruct (iterate _) as [entries|]; [ | exact H].
  now apply load_entries_lengths.
Qed.

Lemma load_files_lengths (files : list string) :
  forall texts metas,
    length metas = length texts ->
    length (snd (load_files py_str read_file json_loads files texts metas))
    = length (fst (load_files py_str read_file json_loads files texts metas)).
Proof.
  induction files as [|filename rest IH]; intros texts metas H; simpl.
  - exact H.
  - pose proof (load_file_lengths filename texts metas H) as Hf.
    destruct (load_file py_str read_file json_loads filename texts metas)
      as [texts' metas'].
    now apply IH.
Qed.

(** What one call of [load_datasets] does, by what the files yield. *)
Lemma load_datasets_cases (st : State) (files : list string) :
  let collected := load_files py_str read_file json_loads files [] [] in
  let res := load_datasets encode py_str read_file json_loads st files in
  (fst collected = [] /\ res = (false, st)) \/
  (fst collected <> [] /\ fst res = true /\
   documents (snd res) = fst collected /\
   metadata (snd res) = snd collected /\
   loaded (snd res) = true /\
   index_covers encode (snd res)).
Proof.
  intros collected res.
  pose proof (load_files_lengths files [] [] eq_refl) as Hlen.
  fold collected in Hlen. unfold res, load_datasets. fold collected.
  destruct collected as [[|text texts] metas]; simpl in *.
  - left. auto.
  - right. repeat split; try discriminate.
    eexists. repeat split; simpl; try reflexivity;
      [unfold ntotal; simpl; now rewrite length_map | exact Hlen | discriminate].
Qed.

Lemma reachable_covers (st : State) :
  reachable encode py_str read_file json_loads st ->
  loaded st = true -> index_covers encode st.
Proof.
  induction 1 as [|st files Hst IH]; intros Hl.
  - discriminate.
  - pose proof (load_datasets_cases st files) as H. cbv zeta in H.
    destruct H as [[_ E] | (_ & _ & _ & _ & _ & H)].
    + rewrite E in *. simpl in *. now apply IH.
    + exact H.
Qed.

(** C10. When the sources yield no entry, [load_datasets] returns [False]
    and the state it was called on: from the initial state, documents and
    metadata empty, no index, [loaded] false. When it returns [True], the
    documents and metadata are the collected ones and [loaded] is set. In
    every reachable state, [loaded] true means that the index exists and
    holds the embeddings of exactly the stored documents, as many as the
    metadata. *)
Theorem load_datasets_atomic (st : State) (files : list string) :
  reachable encode py_str read_file json_loads st ->
  let collected := load_files py_str read_file json_loads files [] [] in
  let res := load_datasets encode py_str read_file json_loads st files in
  (fst collected = [] -> res = (false, st)) /\
  (fst collected = [] -> st = init ->
   fst res = false /\
   documents (snd res) = [] /\ metadata (snd res) = [] /\
   index (snd res) = None /\ loaded (snd res) = false) /\
  (fst res = true ->
   loaded (snd res) = true /\
   documents (snd res) = fst collected /\
   metadata (snd res) = snd collected) /\
  (loaded st = true -> index_covers encode st) /\
  (loaded (snd res) = true -> index_covers encode (snd res)).
Proof.
  intros Hst collected res. subst collected res.
  pose proof (reachable_covers st Hst) as Hcov.
  pose proof (load_datasets_cases st files) as H. cbv zeta in H.
  destruct H as [[Hnone E] | (Hsome & Hok & Hd & Hm & Hl & Hc)].
  - rewrite E. simpl.
    split; [reflexivity | ].
    split; [intros _ ->; repeat split | ].
    split; [discriminate | ].
    split; assumption.
  - split; [intros Hn; now destruct (Hsome Hn) | ].
    split; [intros Hn; now destruct (Hsome Hn) | ].
    split; [intros _; repeat split; assumption | ].
    split; [assumption | intros _; assumption].
Qed.
End Loading.

(** * Further properties of the core *)

(** ** Texts *)

Lemma lower_ascii_idem (c : ascii) :
  PyStr.lower_ascii (PyStr.lower_ascii c) = PyStr.lower_ascii c.
Proof.
  destruct c as [[] [] [] [] [] [] [] []]; reflexivity.
Qed.

Lemma ascii_lower_idem (s : string) :
  PyStr.ascii_lower (PyStr.ascii_lower s) = PyStr.ascii_lower s.
Proof.
  induction s as [|c r IH]; simpl; [reflexivity | ].
  now rewrite lower_ascii_idem, IH.
Qed.

Lemma ascii_lower_app (a b : string) :
  PyStr.ascii_lower (a ++ b)
  = (PyStr.ascii_lower a ++ PyStr.ascii_lower b)%string.
Proof.
  induction a as [|c r IH]; simpl; [reflexivity | now rewrite IH].
Qed.

Lemma lower_ascii_range (c : ascii) :
  (nat_of_ascii (PyStr.lower_ascii c) <? 128)%nat
  = (nat_of_ascii c <? 128)%nat.
Proof.
  destruct c as [[] [] [] [] [] [] [] []]; reflexivity.
Qed.

Lemma is_ascii_lower (s : string) :
  PyStr.is_ascii (PyStr.ascii_lower s) = PyStr.is_ascii s.
Proof.
  induction s as [|c r IH]; cbn [PyStr.is_ascii PyStr.ascii_lower];
    [reflexivity | ].
  now rewrite lower_ascii_range, IH.
Qed.

Lemma is_ascii_app (a b : string) :
  PyStr.is_ascii (a ++ b) = PyStr.is_ascii a && PyStr.is_ascii b.
Proof.
  induction a as [|c r IH]; cbn [PyStr.is_ascii append]; [reflexivity | ].
  now rewrite IH, andb_assoc.
Qed.

Lemma prefix_app (t s : string) :
  prefix t s = true <-> exists r, s = (t ++ r)%string.
Proof.
  revert s. induction t as [|c t IH]; intros s.
  - split; [intros _; now exists s | intros _; destruct s; reflexivity].
  - destruct s as [|a s]; cbn [prefix].
    + split; [discriminate | intros [r Hr]; discriminate].
    + destruct (ascii_dec c a) as [->|Hne].
      * split.
        -- intros H. apply IH in H as [r ->]. now exists r.
        -- intros [r Hr]. injection Hr as Hr. apply IH. now exists r.
      * split; [discriminate | intros [r Hr]; injection Hr; congruence].
Qed.

Lemma string_app_assoc (a b c : string) :
  ((a ++ b) ++ c = a ++ (b ++ c))%string.
Proof.
  induction a as [|x a IH]; simpl; [reflexivity | now rewrite IH].
Qed.

Lemma string_app_nil_r (a : string) : (a ++ EmptyString)%string = a.
Proof.
  induction a as [|x a IH]; simpl; [reflexivity | now rewrite IH].
Qed.

(** [t in s] holds exactly when [s] is some text, then [t], then some text. *)
Lemma contains_app (t s : string) :
  PyStr.contains t s = true <-> exists a b, s = (a ++ t ++ b)%string.
Proof.
  induction s as [|c s IH]; cbn [PyStr.contains].
  - rewrite orb_false_r, prefix_app. split.
    + intros [r Hr]. exists EmptyString, r. exact Hr.
    + intros (a & b & H). destruct a; [ | discriminate]. now exists b.
  - rewrite orb_true_iff, prefix_app, IH. split.
    + intros [[r Hr] | (a & b & H)].
      * exists EmptyString, r. exact Hr.
      * exists (String c a), b. simpl. now rewrite H.
    + intros (a & b & H). destruct a as [|x a]; simpl in H.
      * left. now exists b.
      * right. injection H as _ H. now exists a, b.
Qed.

Lemma contains_within (t s p q : string) :
  PyStr.contains t s = true -> PyStr.contains t (p ++ s ++ q) = true.
Proof.
  rewrite !contains_app. intros (a & b & ->).
  exists (p ++ a)%string, (b ++ q)%string.
  now rewrite !string_app_assoc.
Qed.

(** ** The emergency detector *)

(** X1. On ASCII text, where [str.lower] lower-cases the 26 capitals, the
    emergency flag of a query does not depend on the case of its letters,
    and text put before and after a flagged query never clears the flag. *)
Theorem detect_emergency_stable (query before_text after_text : string) :
  (forall s, PyStr.is_ascii s = true -> lower s = PyStr.ascii_lower s) ->
  PyStr.is_ascii query = true ->
  PyStr.is_ascii before_text = true ->
  PyStr.is_ascii after_text = true ->
  detect_emergency lower (lower query) = detect_emergency lower query /\
  (detect_emergency lower query = true ->
   detect_emergency lower (before_text ++ query ++ after_text) = true).
Proof.
  intros Hlow Hq Hb Ha. unfold detect_emergency.
  assert (Hall : PyStr.is_ascii (before_text ++ query ++ after_text) = true).
  { rewrite !is_ascii_app, Hq, Hb, Ha. reflexivity. }
  rewrite (Hlow _ Hall), !(Hlow _ Hq).
  rewrite (Hlow (PyStr.ascii_lower query))
    by (rewrite is_ascii_lower; exact Hq).
  split.
  - now rewrite ascii_lower_idem.
  - rewrite !existsb_exists. intros (k & Hk & Hc). exists k. split; [exact Hk | ].
    rewrite !ascii_lower_app. now apply contains_within.
Qed.

(** ** The query expander *)

Lemma join_cons_prefix (sep x : string) (l : list string) :
  exists rest, PyStr.join sep (x :: l) = (x ++ rest)%string.
Proof.
  unfold PyStr.join. destruct l as [|y l]; simpl.
  - exists EmptyString. now rewrite string_app_nil_r.
  - eexists. reflexivity.
Qed.

(** X2. The expanded query starts with the query as it was typed, and a
    query in which no term of the synonym table occurs is returned as it
    is. *)
Theorem expand_query_keeps_query (query : string) :
  (exists rest, expand_query lower query = (query ++ rest)%string) /\
  ((forall term synonyms,
       In (term, synonyms) MEDICAL_SYNONYMS ->
       PyStr.contains term (lower query) = false) ->
   expand_query lower query = query).
Proof.
  unfold expand_query. rewrite expanded_variants_spec.
  change (firstn 3 (query :: spec_variants lower query))
    with (query :: firstn 2 (spec_variants lower query)).
  split; [apply join_cons_prefix | ].
  intros H.
  assert (G : forall table : list (string * list string),
             (forall term synonyms,
                 In (term, synonyms) table ->
                 PyStr.contains term (lower query) = false) ->
             flat_map
               (fun entry : string * list string =>
                  let (term, synonyms) := entry in
                  if PyStr.contains term (lower query)
                  then map (fun syn => PyStr.replace (lower query) term syn)
                           (filter (fun syn =>
                                      negb (PyStr.contains syn (lower query)))
                                   (firstn 2 synonyms))
                  else [])
               table = []).
  { induction table as [|[term synonyms] rest IH]; intros Ht; [reflexivity | ].
    cbn [flat_map]. rewrite (Ht term synonyms) by now left.
    apply IH. intros t s Hin. apply (Ht t s). now right. }
  assert (E : spec_variants lower query = []) by (apply G, H).
  rewrite E. reflexivity.
Qed.

(** ** The ranker, further *)

Lemma index_search_positive (ix : Index) (q : vec) (k : Z)
      (cands : list (Q * nat)) :
  index_search ix q k = Ok cands -> (0 < k)%Z.
Proof.
  unfold index_search.
  destruct (negb (length q =? dim ix)%nat); [discriminate | ].
  destruct (k <=? 0)%Z eqn:E; [discriminate | ].
  intros _. apply Z.leb_gt in E. exact E.
Qed.

Lemma firstn_sorted {A : Type} (R : A -> A -> Prop) (n : nat) (l : list A) :
  StronglySorted R l -> StronglySorted R (firstn n l).
Proof.
  intros H. revert n. induction H as [|x l Hs IH Hx]; intros n.
  - rewrite firstn_nil. constructor.
  - destruct n as [|n]; simpl; constructor; [apply IH | ].
    rewrite Forall_forall in Hx |- *. intros y Hy. apply Hx.
    eapply In_firstn, Hy.
Qed.

Lemma search_length_bound (encode : string -> vec) (st : State)
      (query : string) (species : option string) (top_k : Z)
      (out : list SearchResult) :
  search lower encode st query species top_k = Ok out ->
  (Z.of_nat (length out) <= Z.max 0 top_k)%Z.
Proof.
  intros H. destruct (loaded st) eqn:Hl.
  - destruct (search_inv _ _ _ _ _ _ H Hl)
      as (ix & cands & results & _ & Hc & _ & ->).
    apply index_search_positive in Hc.
    assert (Hk : (0 < top_k)%Z) by lia.
    unfold slice_to. destruct (0 <=? top_k)%Z eqn:E; [ | apply Z.leb_gt in E; lia].
    pose proof (firstn_le_length (Z.to_nat top_k) (sort_desc sr_score results)).
    lia.
  - rewrite (search_unloaded encode st query species top_k Hl) in H.
    injection H as <-. simpl. lia.
Qed.

(** X3. [search] never returns more than [top_k] entries. *)
Theorem search_at_most_top_k (encode : string -> vec) (st : State)
    (query : string) (species : option string) (top_k : Z)
    (out : list SearchResult) :
  search lower encode st query species top_k = Ok out ->
  (Z.of_nat (length out) <= Z.max 0 top_k)%Z.
Proof.
  apply search_length_bound.
Qed.

(** X4. The list [search] returns is in descending order of score: an entry
    never has a higher score than one that stands before it. *)
Theorem search_best_first (encode : string -> vec) (st : State)
    (query : string) (species : option string) (top_k : Z)
    (out : list SearchResult) :
  search lower encode st query species top_k = Ok out ->
  forall i j a b,
    (i < j)%nat -> nth_error out i = Some a -> nth_error out j = Some b ->
    (sr_score b <= sr_score a)%Q.
Proof.
  intros H. destruct (loaded st) eqn:Hl.
  - destruct (search_inv _ _ _ _ _ _ H Hl)
      as (ix & cands & results & _ & _ & _ & ->).
    destruct (slice_to_prefix top_k (sort_desc sr_score results)) as [n ->].
    intros i j a b Hij Ha Hb.
    apply nth_error_firstn_some in Ha as [_ Ha].
    apply nth_error_firstn_some in Hb as [_ Hb].
    exact (sorted_nth sr_score _ (sort_desc_sorted sr_score results)
             i j a b Hij Ha Hb).
  - rewrite (search_unloaded encode st query species top_k Hl) in H.
    injection H as <-. intros i j a b _ Ha. destruct i; discriminate.
Qed.

Lemma boost_of_range (severity : value) (boost : Q) :
  boost_of severity = Ok boost ->
  boost = 1 \/ boost = 6 # 5 \/ boost = 3 # 2.
Proof.
  destruct severity; cbn [boost_of]; try discriminate;
    try (intros [= <-]; now left).
  unfold SEVERITY_BOOST. cbn [assoc].
  destruct (String.eqb s "emergency"); [intros [= <-]; auto | ].
  destruct (String.eqb s "urgent"); [intros [= <-]; auto | ].
  destruct (String.eqb s "routine"); intros [= <-]; auto.
Qed.

Lemma boosted_range (raw boost : Q) :
  (MIN_SIMILARITY <= raw)%Q ->
  boost = 1 \/ boost = 6 # 5 \/ boost = 3 # 2 ->
  (raw <= raw * boost)%Q /\ (raw * boost <= raw * (3 # 2))%Q /\
  (MIN_SIMILARITY <= raw * boost)%Q.
Proof.
  unfold MIN_SIMILARITY, Qle. destruct raw as [n d].
  intros H [-> | [-> | ->]]; simpl in *; repeat split; nia.
Qed.

(** X5. Every entry [search] returns carries the metadata and the document
    stored at one and the same position of the corpus. *)
Theorem search_result_position (encode : string -> vec) (st : State)
    (query : string) (species : option string) (top_k : Z)
    (out : list SearchResult) (r : SearchResult) :
  search lower encode st query species top_k = Ok out ->
  In r out ->
  exists idx,
    nth_error (metadata st) idx = Some (sr_metadata r) /\
    nth_error (documents st) idx = Some (sr_text r).
Proof.
  intros H Hr.
  destruct (search_result_origin _ _ _ _ _ _ _ H Hr) as ([raw idx] & _ & Hadm).
  destruct Hadm as (_ & meta & boost & text & Hm & _ & _ & Ht & ->).
  exists idx. auto.
Qed.

(** X6. The score of every entry [search] returns is the raw similarity of a
    candidate of the index, raised by a factor between 1 and 1.5: it is at
    least the raw score, at most 1.5 times the raw score, and never below
    [MIN_SIMILARITY]. *)
Theorem search_score_range (encode : string -> vec) (st : State)
    (query : string) (species : option string) (top_k : Z)
    (out : list SearchResult) (r : SearchResult) :
  search lower encode st query species top_k = Ok out ->
  In r out ->
  exists raw idx,
    candidate lower encode st query top_k (raw, idx) /\
    (raw <= sr_score r)%Q /\
    (sr_score r <= raw * (3 # 2))%Q /\
    (MIN_SIMILARITY <= sr_score r)%Q.
Proof.
  intros H Hr.
  destruct (search_result_origin _ _ _ _ _ _ _ H Hr) as ([raw idx] & Hc & Hadm).
  destruct Hadm as (Hraw & meta & boost & text & _ & _ & Hb & _ & ->).
  simpl in *. apply threshold_reached in Hraw. apply boost_of_range in Hb.
  exists raw, idx. split; [exact Hc | ].
  now apply boosted_range.
Qed.

(** ** The brace-delimited part of a reply *)

Lemma from_open_intro (pre r : string) :
  no_char "{" pre = true ->
  from_open (pre ++ String "{" r) = Some (String "{" r).
Proof.
  induction pre as [|c pre IH]; cbn [append from_open no_char]; intros H.
  - reflexivity.
  - apply andb_prop in H as [Hc Hp]. apply negb_true_iff in Hc.
    rewrite Hc. now apply IH.
Qed.

Lemma from_open_elim (s g : string) :
  from_open s = Some g ->
  exists pre r,
    s = (pre ++ String "{" r)%string /\ g = String "{" r /\
    no_char "{" pre = true.
Proof.
  induction s as [|c s IH]; cbn [from_open]; [discriminate | ].
  destruct (Ascii.eqb c "{") eqn:E.
  - intros [= <-]. apply Ascii.eqb_eq in E as ->.
    exists EmptyString, s. auto.
  - intros H. destruct (IH H) as (pre & r & -> & -> & Hp).
    exists (String c pre), r. cbn [append no_char]. rewrite E. auto.
Qed.

Lemma to_last_close_none (s : string) :
  to_last_close s = None <-> no_char "}" s = true.
Proof.
  induction s as [|c s IH]; cbn [to_last_close no_char]; [tauto | ].
  destruct (to_last_close s) as [p|].
  - split; [discriminate | ]. intros H. apply andb_prop in H as [_ H].
    apply IH in H. discriminate.
  - destruct (Ascii.eqb c "}"); simpl.
    + split; discriminate.
    + split; [intros _; now apply IH | reflexivity].
Qed.

Lemma to_last_close_intro (body post : string) :
  no_char "}" post = true ->
  to_last_close (body ++ String "}" post)
  = Some (body ++ String "}" EmptyString)%string.
Proof.
  intros H. induction body as [|c body IH]; cbn [append to_last_close].
  - apply to_last_close_none in H. now rewrite H.
  - now rewrite IH.
Qed.

Lemma to_last_close_elim (s p : string) :
  to_last_close s = Some p ->
  exists body post,
    s = (body ++ String "}" post)%string /\
    p = (body ++ String "}" EmptyString)%string /\
    no_char "}" post = true.
Proof.
  revert p. induction s as [|c s IH]; cbn [to_last_close]; [discriminate | ].
  intros p. destruct (to_last_close s) as [p'|] eqn:E.
  - intros [= <-]. destruct (IH p' eq_refl) as (body & post & -> & -> & Hp).
    exists (String c body), post. auto.
  - destruct (Ascii.eqb c "}") eqn:Ec; [ | discriminate].
    intros [= <-]. apply Ascii.eqb_eq in Ec as ->.
    exists EmptyString, s. apply to_last_close_none in E. auto.
Qed.

Lemma json_match_intro (pre body post : string) :
  no_char "{" pre = true ->
  no_char "}" post = true ->
  json_match (pre ++ String "{" (body ++ String "}" post))
  = Some (String "{" (body ++ String "}" EmptyString)).
Proof.
  intros Hpre Hpost. unfold json_match.
  rewrite (from_open_intro pre _ Hpre).
  exact (to_last_close_intro (String "{" body) post Hpost).
Qed.

(** X7. The part of a reply handed to the JSON decoder is exactly what lies
    between the first opening brace and the last closing brace after it,
    braces included; there is such a part exactly when the reply has an
    opening brace with a closing brace somewhere after it. *)
Theorem json_match_spec (text g : string) :
  json_match text = Some g <->
  exists pre body post,
    text = (pre ++ String "{" (body ++ String "}" post))%string /\
    g = String "{" (body ++ String "}" EmptyString) /\
    no_char "{" pre = true /\
    no_char "}" post = true.
Proof.
  unfold json_match. split.
  - destruct (from_open text) as [s|] eqn:E; [ | discriminate].
    intros H. apply from_open_elim in E as (pre & r & -> & -> & Hpre).
    apply to_last_close_elim in H as (body' & post & Hs & -> & Hpost).
    destruct body' as [|c body]; cbn [append] in Hs.
    + injection Hs as Hc _. discriminate Hc.
    + injection Hs as <- ->. exists pre, body, post. auto.
  - intros (pre & body & post & -> & -> & Hpre & Hpost).
    fold (json_match (pre ++ String "{" (body ++ String "}" post))).
    now apply json_match_intro.
Qed.

(** X8. Text around the JSON object of a reply is ignored, as long as it has
    no opening brace before the object and no closing brace after it: the
    response is the one the object alone would give. *)
Theorem generate_response_ignores_wrapping (py_str : value -> string)
    (json_loads : string -> option value) (pd : dict) (query : string)
    (matched : list SearchResult) (now : string) (pre body post : string) :
  no_char "{" pre = true ->
  no_char "}" post = true ->
  generate_response lower py_str json_loads pd query matched now
    (Ok (pre ++ String "{" (body ++ String "}" post))%string)
  = generate_response lower py_str json_loads pd query matched now
      (Ok (String "{" (body ++ String "}" EmptyString))).
Proof.
  intros Hpre Hpost.
  assert (E1 : json_match (pre ++ String "{" (body ++ String "}" post))
               = Some (String "{" (body ++ String "}" EmptyString))).
  { now apply json_match_intro. }
  assert (E2 : json_match (String "{" (body ++ String "}" EmptyString))
               = Some (String "{" (body ++ String "}" EmptyString))).
  { exact (json_match_intro EmptyString body EmptyString eq_refl eq_refl). }
  unfold generate_response, bind. now rewrite E1, E2.
Qed.

(** ** What the synthesizer does with a decoded reply *)

Lemma dict_lookup_set_other (k k' : string) (v : value) (d : dict) :
  k <> k' -> dict_lookup k (dict_set k' v d) = dict_lookup k d.
Proof.
  intros Hne. apply String.eqb_neq in Hne.
  induction d as [|[k1 v1] r IH]; cbn [dict_set dict_lookup].
  - now rewrite Hne.
  - destruct (String.eqb k' k1) eqn:E; cbn [dict_lookup].
    + apply String.eqb_eq in E as <-. now rewrite Hne.
    + destruct (String.eqb k k1); [reflexivity | exact IH].
Qed.

(** X9. When the reply decodes to an object, the response is that object
    field for field, except for [query_metadata]: whatever the model put
    under that key is replaced by the record of this query. *)
Theorem decoded_reply_passes_through (py_str : value -> string)
    (json_loads : string -> option value) (pd : dict) (query : string)
    (matched : list SearchResult) (now : string) (reply : result string)
    (d : dict) :
  decoded json_loads reply = Some d ->
  let r := generate_response lower py_str json_loads pd query matched now reply in
  dict_lookup "query_metadata" r
  = Some (query_metadata now matched (detect_emergency lower query)) /\
  forall k, k <> "query_metadata" -> dict_lookup k r = dict_lookup k d.
Proof.
  intros Hd r.
  pose proof (generate_response_cases py_str json_loads pd query matched
                now reply) as H.
  rewrite Hd in H. cbv zeta in H. fold r in H. rewrite H. split.
  - apply dict_lookup_set.
  - intros k Hk. now apply dict_lookup_set_other.
Qed.

(** X10. Whenever a response of [process_query] has a [query_metadata]
    field, the field is the record of this query: the clock reading, the
    number of matches of the search, which is at most 10, the emergency flag
    of the query, and the score of the best match. *)
Theorem process_query_metadata (encode : string -> vec)
    (py_str : value -> string) (json_loads : string -> option value)
    (st : State) (pd : dict) (query now : string) (reply : result string)
    (r : dict) (v : value) :
  process_query lower encode py_str json_loads st pd query now reply = Ok r ->
  dict_lookup "query_metadata" r = Some v ->
  exists species matches,
    search lower encode st query species TOP_K = Ok matches /\
    (length matches <= 10)%nat /\
    v = query_metadata now matches (detect_emergency lower query).
Proof.
  unfold process_query, bind. intros H Hv.
  destruct (value_lower lower _) as [sp|]; [ | discriminate].
  destruct (search lower encode st query (species_filter sp) TOP_K)
    as [matches|] eqn:Hs; [ | discriminate].
  injection H as <-.
  exists (species_filter sp), matches. split; [exact Hs | ].
  split.
  - apply search_length_bound in Hs. unfold TOP_K in Hs. lia.
  - pose proof (generate_response_cases py_str json_loads pd query matches
                  now reply) as H.
    destruct (decoded json_loads reply) as [d|]; cbv zeta in H.
    + rewrite H, dict_lookup_set in Hv. congruence.
    + destruct H as [H | H]; rewrite H in Hv.
      * pose proof (fallback_no_metadata py_str pd matches
                      (detect_emergency lower query)) as Hno.
        unfold dict_mem in Hno. rewrite Hv in Hno. discriminate.
      * rewrite dict_lookup_set in Hv. congruence.
Qed.

(** ** Loading, further *)

Section LoadingFurther.
Variable encode : string -> vec.
Variable py_str : value -> string.
Variable read_file : string -> option string.
Variable json_loads : string -> option value.

Lemma load_entries_acc (category : string) (entries : list value) :
  forall texts metas,
    load_entries py_str category entries texts metas
    = (texts ++ fst (load_entries py_str category entries [] []),
       metas ++ snd (load_entries py_str category entries [] [])).
Proof.
  induction entries as [|entry rest IH]; intros texts metas;
    cbn [load_entries].
  - cbn [fst snd]. now rewrite !app_nil_r.
  - destruct entry; cbn [fst snd]; try now rewrite !app_nil_r.
    rewrite IH. rewrite (IH ([] ++ _) ([] ++ _)). cbn [fst snd app].
    now rewrite <- !app_assoc.
Qed.

Lemma load_file_acc (filename : string) (texts : list string)
      (metas : list dict) :
  load_file py_str read_file json_loads filename texts metas
  = (texts ++ fst (load_file py_str read_file json_loads filename [] []),
     metas ++ snd (load_file py_str read_file json_loads filename [] [])).
Proof.
  unfold load_file.
  destruct (read_file filename) as [content|];
    [ | cbn [fst snd]; now rewrite !app_nil_r].
  destruct (json_loads content) as [[]|];
    try (cbn [fst snd]; now rewrite !app_nil_r).
  destruct (iterate _) as [entries|];
    [ | cbn [fst snd]; now rewrite !app_nil_r].
  apply load_entries_acc.
Qed.

Lemma load_files_acc (files : list string) :
  forall texts metas,
    load_files py_str read_file json_loads files texts metas
    = (texts ++ fst (load_files py_str read_file json_loads files [] []),
       metas ++ snd (load_files py_str read_file json_loads files [] [])).
Proof.
  induction files as [|filename rest IH]; intros texts metas;
    cbn [load_files].
  - cbn [fst snd]. now rewrite !app_nil_r.
  - rewrite (load_file_acc filename texts metas).
    rewrite (load_file_acc filename [] []). cbn [app].
    destruct (load_file py_str read_file json_loads filename [] [])
      as [t m]. cbn [fst snd].
    rewrite IH. rewrite (IH t m). cbn [fst snd].
    now rewrite <- !app_assoc.
Qed.

Lemma load_files_app (files1 files2 : list string) :
  forall texts metas,
    load_files py_str read_file json_loads (files1 ++ files2) texts metas
    = load_files py_str read_file json_loads files2
        (fst (load_files py_str read_file json_loads files1 texts metas))
        (snd (load_files py_str read_file json_loads files1 texts metas)).
Proof.
  induction files1 as [|filename rest IH]; intros texts metas;
    cbn [app load_files].
  - reflexivity.
  - destruct (load_file py_str read_file json_loads filename texts metas)
      as [t m]. apply IH.
Qed.

(** X11. The corpus collected from a list of files is the corpus of the
    first files followed by the corpus of the last ones, documents and
    metadata alike; loading the whole list succeeds exactly when loading one
    of the two parts does. *)
Theorem load_files_concat (st : State) (files1 files2 : list string) :
  let collect := fun files => load_files py_str read_file json_loads files [] [] in
  let load := load_datasets encode py_str read_file json_loads st in
  collect (files1 ++ files2)
  = (fst (collect files1) ++ fst (collect files2),
     snd (collect files1) ++ snd (collect files2)) /\
  fst (load (files1 ++ files2)) = fst (load files1) || fst (load files2).
Proof.
  intros collect load.
  assert (E : collect (files1 ++ files2)
              = (fst (collect files1) ++ fst (collect files2),
                 snd (collect files1) ++ snd (collect files2))).
  { unfold collect. rewrite load_files_app. apply load_files_acc. }
  split; [exact E | ].
  unfold load, load_datasets. fold (collect (files1 ++ files2)).
  fold (collect files1). fold (collect files2). rewrite E.
  destruct (collect files1) as [[|t1 ts1] m1];
    destruct (collect files2) as [[|t2 ts2] m2]; reflexivity.
Qed.

Lemma load_file_unusable (filename : string) (texts : list string)
      (metas : list dict) :
  unusable read_file json_loads filename = true ->
  load_file py_str read_file json_loads filename texts metas = (texts, metas).
Proof.
  unfold unusable, load_file.
  destruct (read_file filename) as [content|]; [ | reflexivity].
  destruct (json_loads content) as [[]|]; try reflexivity. discriminate.
Qed.

(** X12. A dataset file that cannot be read, whose text does not decode, or
    that decodes to anything but an object (an array of entries at the top
    level included) is skipped: loading a list of files with it gives what
    loading the list without it gives. *)
Theorem load_datasets_skips_unusable (st : State) (files1 files2 : list string)
    (filename : string) :
  unusable read_file json_loads filename = true ->
  load_datasets encode py_str read_file json_loads st
    (files1 ++ filename :: files2)
  = load_datasets encode py_str read_file json_loads st (files1 ++ files2).
Proof.
  intros H. unfold load_datasets. rewrite !load_files_app.
  cbn [load_files]. now rewrite (load_file_unusable filename _ _ H).
Qed.

(** X13. In a dataset file, an entry that is not an object ends the reading
    of the file: the entries before it are kept, the entries after it are
    never read. *)
Theorem load_entries_stops (category : string) (good rest : list value)
    (bad : value) (texts : list string) (metas : list dict) :
  is_dict bad = false ->
  load_entries py_str category (good ++ bad :: rest) texts metas
  = load_entries py_str category good texts metas.
Proof.
  intros H. revert texts metas.
  induction good as [|entry good IH]; intros texts metas; cbn [app load_entries].
  - destruct bad; try reflexivity. discriminate.
  - destruct entry; try reflexivity. apply IH.
Qed.

Lemma load_entries_kept (category : string) (entries : list value) :
  forall texts metas,
    Forall2 (fun text meta => text = rendered py_str meta /\ has_category meta)
            texts metas ->
    Forall2 (fun text meta => text = rendered py_str meta /\ has_category meta)
            (fst (load_entries py_str category entries texts metas))
            (snd (load_entries py_str category entries texts metas)).
Proof.
  induction entries as [|entry rest IH]; intros texts metas H;
    cbn [load_entries]; [exact H | ].
  destruct entry; try exact H.
  apply IH. apply Forall2_app; [exact H | ].
  constructor; [ | constructor]. split.
  - unfold rendered, dict_get.
    rewrite !dict_lookup_set_other by discriminate. reflexivity.
  - eexists. apply dict_lookup_set.
Qed.

Lemma load_files_kept (files : list string) :
  forall texts metas,
    Forall2 (fun text meta => text = rendered py_str meta /\ has_category meta)
            texts metas ->
    Forall2 (fun text meta => text = rendered py_str meta /\ has_category meta)
            (fst (load_files py_str read_file json_loads files texts metas))
            (snd (load_files py_str read_file json_loads files texts metas)).
Proof.
  induction files as [|filename rest IH]; intros texts metas H;
    cbn [load_files]; [exact H | ].
  destruct (load_file py_str read_file json_loads filename texts metas)
    as [t m] eqn:E.
  apply IH.
  change t with (fst (t, m)). change m with (snd (t, m)) at 2. rewrite <- E.
  unfold load_file.
  destruct (read_file filename) as [content|]; [ | exact H].
  destruct (json_loads content) as [[]|]; try exact H.
  destruct (iterate _) as [entries|]; [ | exact H].
  now apply load_entries_kept.
Qed.

Lemma reachable_kept (st : State) :
  reachable encode py_str read_file json_loads st ->
  Forall2 (fun text meta => text = rendered py_str meta /\ has_category meta)
          (documents st) (metadata st).
Proof.
  induction 1 as [|st files Hst IH].
  - constructor.
  - pose proof (load_datasets_cases encode py_str read_file json_loads st files)
      as H. cbv zeta in H.
    destruct H as [[_ E] | (_ & _ & Hd & Hm & _ & _)].
    + rewrite E. exact IH.
    + rewrite Hd, Hm. apply load_files_kept. constructor.
Qed.

Lemma Forall2_nth_error {A B : Type} (R : A -> B -> Prop)
      (l1 : list A) (l2 : list B) :
  Forall2 R l1 l2 ->
  forall i a b, nth_error l1 i = Some a -> nth_error l2 i = Some b -> R a b.
Proof.
  induction 1 as [|x y l1 l2 Hxy H IH]; intros i a b Ha Hb.
  - destruct i; discriminate.
  - destruct i as [|i]; simpl in *.
    + congruence.
    + now apply (IH i).
Qed.

(** X14. In every reachable state the document at a position is the text
    [symptom. description] of the metadata at the same position, and every
    stored metadata has a [category], which is a string. *)
Theorem corpus_positions_agree (st : State) (i : nat) (text : string)
    (meta : dict) :
  reachable encode py_str read_file json_loads st ->
  nth_error (documents st) i = Some text ->
  nth_error (metadata st) i = Some meta ->
  text = rendered py_str meta /\ has_category meta.
Proof.
  intros Hst Ht Hm.
  exact (Forall2_nth_error _ _ _ (reachable_kept st Hst) i text meta Ht Hm).
Qed.

(** X15. On a reachable state, the text of every entry [search] returns is
    the text [symptom. description] of the metadata the entry carries, and
    that metadata has a [category]. *)
Theorem search_result_rendered (st : State) (query : string)
    (species : option string) (top_k : Z) (out : list SearchResult)
    (r : SearchResult) :
  reachable encode py_str read_file json_loads st ->
  search lower encode st query species top_k = Ok out ->
  In r out ->
  sr_text r = rendered py_str (sr_metadata r) /\ has_category (sr_metadata r).
Proof.
  intros Hst H Hr.
  destruct (search_result_origin _ _ _ _ _ _ _ H Hr) as ([raw idx] & _ & Hadm).
  destruct Hadm as (_ & meta & boost & text & Hm & _ & _ & Ht & ->).
  cbn [sr_text sr_metadata snd] in *.
  exact (Forall2_nth_error _ _ _ (reachable_kept st Hst) idx text meta Ht Hm).
Qed.
End LoadingFurther.

(** * The HTTP layer *)

(** ** Stripping *)

Lemma prefix_head (c : ascii) (t : string) (a : ascii) (s : string) :
  prefix (String c t) (String a s) = true -> c = a /\ prefix t s = true.
Proof.
  cbn [prefix]. destruct (ascii_dec c a); [auto | discriminate].
Qed.

Lemma prefix_cons (c : ascii) (t s : string) :
  prefix t s = true -> prefix (String c t) (String c s) = true.
Proof.
  intros H. cbn [prefix]. destruct (ascii_dec c c); [exact H | congruence].
Qed.

(** A text that starts with a visible character is not white space. *)
Lemma white_visible (c : ascii) (s : string) :
  PyStr.visible c = true -> PyStr.white (String c s) = false.
Proof.
  intros Hc. destruct (PyStr.white (String c s)) eqn:W; [ | reflexivity].
  apply white_blank in W. cbn [blank] in W. rewrite Hc in W. discriminate.
Qed.

Lemma contains_lstrip_from (c : ascii) (t s : string) :
  PyStr.visible c = true ->
  forall k, blank_head k s = true ->
            PyStr.contains (String c t) s = true ->
            PyStr.contains (String c t) (lstrip_from s k) = true.
Proof.
  intros Hc. induction s as [|a s IH]; intros k Hb H; [exact H | ].
  assert (Step : forall n,
             blank_head (S n) (String a s) = true ->
             PyStr.contains (String c t) (lstrip_from s n) = true).
  { intros n Hn. cbn [blank_head] in Hn. apply andb_prop in Hn as [Ha Hn].
    apply IH; [exact Hn | ].
    cbn [PyStr.contains] in H. apply orb_true_iff in H as [H | H]; [ | exact H].
    apply prefix_head in H as [-> _]. rewrite Hc in Ha. discriminate. }
  destruct k as [|k]; cbn [lstrip_from].
  - pose proof (space_width_blank (String a s)) as Hs.
    destruct (PyStr.space_width (String a s)) as [|n]; [exact H | ].
    exact (Step n Hs).
  - exact (Step k Hb).
Qed.

Lemma contains_lstrip (c : ascii) (t s : string) :
  PyStr.visible c = true ->
  PyStr.contains (String c t) s = true ->
  PyStr.contains (String c t) (lstrip s) = true.
Proof.
  intros Hc H. unfold lstrip.
  apply contains_lstrip_from; [exact Hc | | exact H].
  destruct s; reflexivity.
Qed.

Lemma prefix_rstrip (t : string) :
  forall s, PyStr.all_visible t = true -> prefix t s = true ->
            prefix t (rstrip s) = true.
Proof.
  induction t as [|c t IH]; intros s Ht Hp.
  - destruct (rstrip s); reflexivity.
  - destruct s as [|a s]; [discriminate | ].
    apply prefix_head in Hp as [<- Hp].
    cbn [PyStr.all_visible] in Ht. apply andb_prop in Ht as [Hc Ht].
    cbn [rstrip]. rewrite (white_visible c s Hc).
    apply prefix_cons. now apply IH.
Qed.

Lemma contains_rstrip (c : ascii) (t s : string) :
  PyStr.all_visible (String c t) = true ->
  PyStr.contains (String c t) s = true ->
  PyStr.contains (String c t) (rstrip s) = true.
Proof.
  intros Ht. induction s as [|a s IH]; intros H; [discriminate | ].
  assert (Hc : PyStr.visible c = true).
  { cbn [PyStr.all_visible] in Ht. now apply andb_prop in Ht as [Hc _]. }
  pose proof (prefix_rstrip (String c t) (String a s) Ht) as Hp.
  cbn [rstrip] in Hp |- *.
  destruct (PyStr.white (String a s)) eqn:W.
  - apply white_blank in W. rewrite (contains_blank c t _ Hc W) in H.
    discriminate.
  - cbn [PyStr.contains] in H |- *. apply orb_true_iff in H as [H | H].
    + now rewrite (Hp H).
    + rewrite (IH H). apply orb_true_r.
Qed.

(** A word of visible ASCII characters that occurs in a text occurs in the
    stripped text. *)
Lemma contains_strip (c : ascii) (t s : string) :
  PyStr.all_visible (String c t) = true ->
  PyStr.contains (String c t) s = true ->
  PyStr.contains (String c t) (strip s) = true.
Proof.
  intros Ht H. unfold strip.
  apply contains_rstrip; [exact Ht | ].
  apply contains_lstrip; [ | exact H].
  cbn [PyStr.all_visible] in Ht. now apply andb_prop in Ht as [Hc _].
Qed.

Lemma len_cons (c : ascii) (s : string) :
  (PyStr.len s <= PyStr.len (String c s) <= S (PyStr.len s))%nat.
Proof.
  cbn [PyStr.len]. destruct (PyStr.continues c); lia.
Qed.

Lemma lstrip_from_len (s : string) :
  forall k, (PyStr.len (lstrip_from s k) <= PyStr.len s)%nat.
Proof.
  induction s as [|c s IH]; intros k; [apply le_n | ].
  pose proof (len_cons c s) as Hc.
  destruct k as [|k]; cbn [lstrip_from].
  - destruct (PyStr.space_width (String c s)) as [|n]; [apply le_n | ].
    specialize (IH n). lia.
  - specialize (IH k). lia.
Qed.

Lemma rstrip_len (s : string) : (PyStr.len (rstrip s) <= PyStr.len s)%nat.
Proof.
  induction s as [|c s IH]; [apply le_n | ].
  cbn [rstrip]. destruct (PyStr.white (String c s)).
  - apply Nat.le_0_l.
  - cbn [PyStr.len]. destruct (PyStr.continues c); lia.
Qed.

(** Stripping does not add characters. *)
Lemma strip_len (s : string) : (PyStr.len (strip s) <= PyStr.len s)%nat.
Proof.
  unfold strip, lstrip.
  pose proof (rstrip_len (lstrip_from s 0)). pose proof (lstrip_from_len s 0).
  lia.
Qed.

(** ** Validation *)

Lemma first_missing_cons (data : value) (field : string) (rest : list string) :
  first_missing data (field :: rest) = Return None <->
  exists d s,
    data = VDict d /\
    dict_lookup field d = Some (VStr s) /\
    is_empty (strip s) = false /\
    first_missing data rest = Return None.
Proof.
  cbn [first_missing]. split.
  - destruct data as [| | | |s|l|d]; cbn [py_in and_then]; try discriminate.
    + destruct (PyStr.contains field s); cbn; discriminate.
    + destruct (existsb _ l); cbn; discriminate.
    + unfold dict_mem, py_getitem.
      destruct (dict_lookup field d) as [v|] eqn:Hl; cbn [negb and_then];
        [ | discriminate].
      destruct v as [| | | |s| |]; cbn [value_strip and_then]; try discriminate.
      destruct (is_empty (strip s)) eqn:E; [discriminate | ].
      intros H. exists d, s. auto.
  - intros (d & s & -> & Hl & He & H).
    cbn [py_in and_then]. unfold dict_mem, py_getitem. rewrite Hl.
    cbn [negb and_then value_strip]. now rewrite He.
Qed.

Lemma validate_accepts_iff (data : value) (message : string) :
  validate_pet_details lower data = Return (true, message) <->
  message = EmptyString /\
  exists d name species query,
    data = VDict d /\
    dict_lookup "name" d = Some (VStr name) /\
    dict_lookup "species" d = Some (VStr species) /\
    dict_lookup "query" d = Some (VStr query) /\
    is_empty (strip name) = false /\
    is_empty (strip species) = false /\
    is_empty (strip query) = false /\
    PyStr.contains "dog" (lower species)
    || PyStr.contains "cat" (lower species) = true /\
    (10 <= PyStr.len query <= 1000)%nat.
Proof.
  unfold validate_pet_details. split.
  - destruct (first_missing data ["name"; "species"; "query"])
      as [[field|]|] eqn:E; cbn [and_then]; try discriminate.
    apply first_missing_cons in E as (d & name & -> & Hn & Hne & E).
    apply first_missing_cons in E as (d' & species & Hd & Hs & Hse & E).
    injection Hd as <-.
    apply first_missing_cons in E as (d' & query & Hd & Hq & Hqe & _).
    injection Hd as <-.
    unfold py_getitem. rewrite Hs, Hq.
    cbn [and_then of_core value_lower py_len].
    destruct (negb (PyStr.contains "dog" (lower species)) &&
              negb (PyStr.contains "cat" (lower species))) eqn:Hno;
      [discriminate | ].
    destruct (PyStr.len query <? 10)%nat eqn:H10; [discriminate | ].
    destruct (1000 <? PyStr.len query)%nat eqn:H1000; [discriminate | ].
    intros [= <-]. apply Nat.ltb_ge in H10, H1000.
    split; [reflexivity | ].
    exists d, name, species, query.
    assert (Hsp : PyStr.contains "dog" (lower species)
                  || PyStr.contains "cat" (lower species) = true).
    { apply andb_false_iff in Hno as [H | H]; apply negb_false_iff in H;
        rewrite H; [reflexivity | apply orb_true_r]. }
    repeat split; assumption.
  - intros (-> & d & name & species & query & -> & Hn & Hs & Hq & Hne & Hse
            & Hqe & Hsp & H10 & H1000).
    assert (E : first_missing (VDict d) ["name"; "species"; "query"]
                = Return None).
    { apply first_missing_cons. exists d, name. repeat split; auto.
      apply first_missing_cons. exists d, species. repeat split; auto.
      apply first_missing_cons. exists d, query. repeat split; auto. }
    rewrite E. cbn [and_then]. unfold py_getitem. rewrite Hs, Hq.
    cbn [and_then of_core value_lower py_len].
    apply orb_true_iff in Hsp.
    assert (Hno : negb (PyStr.contains "dog" (lower species)) &&
                  negb (PyStr.contains "cat" (lower species)) = false).
    { destruct Hsp as [-> | ->]; [reflexivity | apply andb_false_r]. }
    rewrite Hno.
    apply Nat.ltb_ge in H10, H1000. now rewrite H10, H1000.
Qed.

(** X16. [validate_pet_details] accepts a request exactly when it is an
    object whose [name], [species] and [query] are strings that are not
    blank, whose lower-cased species mentions [dog] or [cat], and whose
    query has between 10 and 1000 characters; it then returns an empty
    message. Blank is empty once the white space of the interpreter is
    stripped, and the characters are counted as [len] counts them. *)
Theorem validate_accepts (data : value) (message : string) :
  validate_pet_details lower data = Return (true, message) <->
  message = EmptyString /\
  exists d name species query,
    data = VDict d /\
    dict_lookup "name" d = Some (VStr name) /\
    dict_lookup "species" d = Some (VStr species) /\
    dict_lookup "query" d = Some (VStr query) /\
    is_empty (strip name) = false /\
    is_empty (strip species) = false /\
    is_empty (strip query) = false /\
    PyStr.contains "dog" (lower species)
    || PyStr.contains "cat" (lower species) = true /\
    (10 <= PyStr.len query <= 1000)%nat.
Proof.
  apply validate_accepts_iff.
Qed.

(** X17. A request that passes validation reaches the core with a species
    filter set, [dogs] or [cats], and with a stripped query that is not
    empty and has at most 1000 characters. The validator lower-cases the
    species as sent and the core lower-cases the stripped one: the two agree
    because [str.lower] leaves the white space at the ends of a text where
    it is, which is the hypothesis on the species of the request. *)
Theorem accepted_request_reaches_core (d : dict) (message : string) :
  (forall species,
      dict_lookup "species" d = Some (VStr species) ->
      lower (strip species) = strip (lower species)) ->
  validate_pet_details lower (VDict d) = Return (true, message) ->
  exists species query,
    dict_lookup "species" d = Some (VStr species) /\
    dict_lookup "query" d = Some (VStr query) /\
    (species_filter (lower (strip species)) = Some "dogs" \/
     species_filter (lower (strip species)) = Some "cats") /\
    is_empty (strip query) = false /\
    (PyStr.len (strip query) <= 1000)%nat.
Proof.
  intros Hlow H. apply validate_accepts_iff in H
    as (_ & d' & name & species & query & Hd & _ & Hs & Hq & _ & _ & Hqe
        & Hsp & _ & H1000).
  injection Hd as <-. exists species, query.
  split; [exact Hs | split; [exact Hq | split; [ | split]]].
  - unfold species_filter. rewrite (Hlow species Hs).
    destruct (PyStr.contains "dog" (lower species)) eqn:Hdog.
    + rewrite (contains_strip "d"%char "og" _ eq_refl Hdog). now left.
    + cbn [orb] in Hsp.
      rewrite (contains_strip "c"%char "at" _ eq_refl Hsp).
      destruct (PyStr.contains "dog" (strip (lower species)));
        [now left | now right].
  - exact Hqe.
  - pose proof (strip_len query). lia.
Qed.

(** ** The query handler *)

Lemma field_string (d : dict) (k : string) (v : value) :
  fields_are_strings d = true ->
  In k REQUEST_FIELDS ->
  dict_lookup k d = Some v ->
  exists s, v = VStr s.
Proof.
  unfold fields_are_strings. rewrite forallb_forall. intros H Hk Hv.
  specialize (H k Hk). rewrite Hv in H.
  destruct v; try discriminate. eexists. reflexivity.
Qed.

Lemma first_missing_total (d : dict) (fields : list string) :
  fields_are_strings d = true ->
  (forall f, In f fields -> In f REQUEST_FIELDS) ->
  exists m, first_missing (VDict d) fields = Return m.
Proof.
  intros Hd. induction fields as [|f rest IH]; intros Hin; cbn [first_missing].
  - eexists. reflexivity.
  - cbn [py_in and_then]. unfold dict_mem, py_getitem.
    destruct (dict_lookup f d) as [v|] eqn:Hv; cbn [negb and_then].
    + destruct (field_string d f v Hd (Hin f (or_introl eq_refl)) Hv) as [s ->].
      cbn [value_strip and_then].
      destruct (is_empty (strip s)); [eexists; reflexivity | ].
      apply IH. intros g Hg. apply Hin. now right.
    + eexists. reflexivity.
Qed.

Lemma validate_total (d : dict) :
  fields_are_strings d = true ->
  exists valid message, validate_pet_details lower (VDict d) = Return (valid, message).
Proof.
  intros Hd. unfold validate_pet_details.
  destruct (first_missing_total d ["name"; "species"; "query"] Hd) as [m Hm].
  { unfold REQUEST_FIELDS. intros f Hf. simpl in *. tauto. }
  rewrite Hm. cbn [and_then]. destruct m as [field|].
  - eexists _, _. reflexivity.
  - apply first_missing_cons in Hm as (d1 & name & E1 & _ & _ & Hm).
    apply first_missing_cons in Hm as (d2 & species & E2 & Hs & _ & Hm).
    apply first_missing_cons in Hm as (d3 & query & E3 & Hq & _ & _).
    injection E2 as <-. injection E3 as <-.
    unfold py_getitem. rewrite Hs, Hq.
    cbn [and_then of_core value_lower py_len].
    destruct (negb _ && negb _); [eexists _, _; reflexivity | ].
    destruct (PyStr.len query <? 10)%nat; [eexists _, _; reflexivity | ].
    destruct (1000 <? PyStr.len query)%nat; eexists _, _; reflexivity.
Qed.

Lemma optional_field_total (d : dict) (k default : string) :
  fields_are_strings d = true ->
  In k REQUEST_FIELDS ->
  exists s, optional_field (VDict d) k default = Return (VStr s).
Proof.
  intros Hd Hk. unfold optional_field, py_get, dict_get. cbn [and_then].
  destruct (dict_lookup k d) as [v|] eqn:Hv.
  - destruct (field_string d k v Hd Hk Hv) as [s ->]. eexists. reflexivity.
  - eexists. reflexivity.
Qed.

Lemma build_pet_details_total (d : dict) (name species : string) :
  fields_are_strings d = true ->
  dict_lookup "name" d = Some (VStr name) ->
  dict_lookup "species" d = Some (VStr species) ->
  exists pd,
    build_pet_details (VDict d) = Return pd /\
    dict_lookup "name" pd = Some (VStr (strip name)) /\
    dict_lookup "species" pd = Some (VStr (strip species)).
Proof.
  intros Hd Hn Hs. unfold build_pet_details, required_field, py_getitem.
  rewrite Hn, Hs. cbn [and_then value_strip].
  destruct (optional_field_total d "breed" "Mixed" Hd) as [s1 ->];
    [unfold REQUEST_FIELDS; simpl; tauto | ].
  destruct (optional_field_total d "age" "Unknown" Hd) as [s2 ->];
    [unfold REQUEST_FIELDS; simpl; tauto | ].
  destruct (optional_field_total d "weight" "Unknown" Hd) as [s3 ->];
    [unfold REQUEST_FIELDS; simpl; tauto | ].
  destruct (optional_field_total d "sex" "Unknown" Hd) as [s4 ->];
    [unfold REQUEST_FIELDS; simpl; tauto | ].
  destruct (optional_field_total d "vaccination_summary" "Not provided" Hd)
    as [s5 ->]; [unfold REQUEST_FIELDS; simpl; tauto | ].
  destruct (optional_field_total d "medical_history" "No history provided" Hd)
    as [s6 ->]; [unfold REQUEST_FIELDS; simpl; tauto | ].
  cbn [and_then]. eexists. repeat split; reflexivity.
Qed.

Lemma process_query_returns (encode : string -> vec) (py_str : value -> string)
      (json_loads : string -> option value) (n : nat) (st : State)
      (pd : dict) (species query now : string) (reply : result string) :
  (forall s, length (encode s) = n) ->
  (loaded st = true -> index_covers encode st) ->
  corpus_ok st = true ->
  dict_lookup "species" pd = Some (VStr species) ->
  exists r, process_query lower encode py_str json_loads st pd query now reply = Ok r.
Proof.
  intros Hdim Hcov Hok Hsp. unfold process_query, dict_get. rewrite Hsp.
  cbn [value_lower bind].
  destruct (search_total encode n st query
              (species_filter (lower species)) Hdim Hcov Hok)
    as (matches & -> & _).
  eexists. reflexivity.
Qed.

Section ApiFacts.
Variable encode : string -> vec.
Variable py_str : value -> string.
Variable read_file : string -> option string.
Variable json_loads : string -> option value.
Variable exn_text : app_exn -> string.

Lemma query_endpoint_ready_status (rag : State) (body : outcome value)
      (now : string) (reply : result string) :
  loaded rag = true ->
  let status := snd (query_endpoint lower encode py_str json_loads exn_text
                       (Some rag) body now reply) in
  status = 200%Z \/ status = 400%Z \/ status = 500%Z.
Proof.
  intros Hl. unfold query_endpoint. rewrite Hl. cbn [negb].
  destruct body as [data|e]; cbn [and_then]; [ | auto].
  destruct (py_truthy data); cbn [negb]; [ | auto].
  destruct (validate_pet_details lower data) as [[valid message]|e];
    cbn [and_then]; [ | auto].
  destruct valid; cbn [negb]; [ | auto].
  destruct (build_pet_details data) as [pd|e]; cbn [and_then]; [ | auto].
  destruct (py_getitem data "query") as [q|e]; cbn [and_then]; [ | auto].
  destruct (value_strip q) as [query|e]; cbn [and_then]; [ | auto].
  destruct (of_core _) as [response|e]; cbn [and_then]; auto.
Qed.

(** X18. The three handlers agree on readiness. Without a loaded system the
    query handler answers 503 before it looks at the request, the dataset
    handler answers 503 and the health handler reports [rag_loaded] false;
    with a loaded system the query handler never answers 503, the dataset
    handler answers 200 and the health handler reports [rag_loaded] true. *)
Theorem handlers_agree_on_readiness (rag_system : option State)
    (body : outcome value) (now : string) (reply : result string) :
  let unavailable := (error_body "RAG system not initialized", 503%Z) in
  let answer := query_endpoint lower encode py_str json_loads exn_text
                  rag_system body now reply in
  (not_ready rag_system = true ->
   answer = unavailable /\
   dataset_info rag_system = unavailable /\
   dict_lookup "rag_loaded" (fst (health_check rag_system))
   = Some (VBool false)) /\
  (not_ready rag_system = false ->
   snd answer <> 503%Z /\
   snd (dataset_info rag_system) = 200%Z /\
   dict_lookup "rag_loaded" (fst (health_check rag_system))
   = Some (VBool true)).
Proof.
  intros unavailable answer. split; intros H.
  - unfold answer, query_endpoint, dataset_info, health_check.
    destruct rag_system as [rag|]; cbn [not_ready] in *.
    + rewrite H. repeat split.
    + repeat split.
  - destruct rag_system as [rag|]; cbn [not_ready] in H; [ | discriminate].
    apply negb_false_iff in H. split; [ | split].
    + pose proof (query_endpoint_ready_status rag body now reply H) as Hs.
      cbv zeta in Hs. unfold answer. lia.
    + unfold dataset_info. now rewrite H.
    + unfold health_check. cbn [not_ready fst]. now rewrite H.
Qed.

(** X19. A request whose fields are strings is never answered with an
    internal error. On a loaded, consistent system over a corpus of the data
    model, with an embedder of one dimension, the query handler answers a
    request object whose fields are strings with 400, or with 200 and the
    response of [process_query] on the stripped fields, whatever the
    generative model does. *)
Theorem query_endpoint_no_internal_error (n : nat) (rag : State) (d : dict)
    (now : string) (reply : result string) :
  (forall s, length (encode s) = n) ->
  loaded rag = true ->
  index_covers encode rag ->
  corpus_ok rag = true ->
  fields_are_strings d = true ->
  let answer := query_endpoint lower encode py_str json_loads exn_text
                  (Some rag) (Return (VDict d)) now reply in
  snd answer = 400%Z \/
  exists pd query response,
    build_pet_details (VDict d) = Return pd /\
    dict_lookup "query" d = Some (VStr query) /\
    process_query lower encode py_str json_loads rag pd (strip query) now reply
    = Ok response /\
    answer = ([ ("success", VBool true); ("data", VDict response) ], 200%Z).
Proof.
  intros Hdim Hl Hcov Hok Hd answer. unfold answer, query_endpoint.
  rewrite Hl. cbn [negb and_then].
  destruct (py_truthy (VDict d)); cbn [negb]; [ | now left].
  destruct (validate_total d Hd) as (valid & message & Hv).
  rewrite Hv. cbn [and_then]. destruct valid; cbn [negb]; [ | now left].
  apply validate_accepts_iff in Hv
    as (_ & d' & name & species & query & E & Hn & Hs & Hq & _).
  injection E as <-.
  destruct (build_pet_details_total d name species Hd Hn Hs)
    as (pd & Hpd & _ & Hsp).
  rewrite Hpd. cbn [and_then]. unfold py_getitem. rewrite Hq.
  cbn [and_then value_strip].
  destruct (process_query_returns encode py_str json_loads n rag pd
              (strip species) (strip query) now reply Hdim (fun _ => Hcov)
              Hok Hsp) as [response Hr].
  rewrite Hr. cbn [of_core and_then]. right.
  exists pd, query, response. auto.
Qed.

(** X20. A required field that is present but is not a string is answered
    with 500, not with 400: a request object whose [name] is not a string
    makes [strip] raise inside the validation, and the handler reports an
    internal error. *)
Theorem query_endpoint_non_string_name (rag : State) (d : dict) (v : value)
    (now : string) (reply : result string) :
  loaded rag = true ->
  dict_lookup "name" d = Some v ->
  is_str v = false ->
  query_endpoint lower encode py_str json_loads exn_text
    (Some rag) (Return (VDict d)) now reply
  = ([ ("success", VBool false);
       ("error", VStr "Internal server error");
       ("message", VStr (exn_text (CoreError AttributeError))) ], 500%Z).
Proof.
  intros Hl Hn Hv. unfold query_endpoint. rewrite Hl. cbn [negb and_then].
  assert (Ht : py_truthy (VDict d) = true)
    by (destruct d; [discriminate | reflexivity]).
  rewrite Ht. cbn [negb].
  unfold validate_pet_details. cbn [first_missing py_in and_then].
  unfold dict_mem, py_getitem. rewrite Hn. cbn [negb and_then].
  destruct v; try discriminate; reflexivity.
Qed.
End ApiFacts.

(** ** Start-up and the dataset handler *)

Section Startup.
Variable encode : string -> vec.
Variable py_str : value -> string.
Variable read_file : string -> option string.
Variable json_loads : string -> option value.

(** X21. On a loaded system that was reached by loading, the dataset handler
    answers 200 with a [total_entries] that is at least 1 and is the number
    of stored documents, of stored metadata and of indexed vectors alike. *)
Theorem dataset_info_counts (rag : State) :
  reachable encode py_str read_file json_loads rag ->
  loaded rag = true ->
  dataset_info (Some rag)
  = ([ ("success", VBool true);
       ("data",
         VDict [ ("total_entries", VInt (Z.of_nat (length (documents rag))));
                 ("embedding_model", VStr "all-MiniLM-L6-v2");
                 ("llm_model", VStr "gemini-2.0-flash") ]) ], 200%Z) /\
  (1 <= length (documents rag))%nat /\
  length (metadata rag) = length (documents rag) /\
  exists ix, index rag = Some ix /\ ntotal ix = length (documents rag).
Proof.
  intros Hr Hl.
  destruct (reachable_covers encode py_str read_file json_loads rag Hr Hl)
    as (ix & Hix & _ & _ & Hn & Hm & Hne).
  split; [unfold dataset_info; now rewrite Hl | ].
  split; [destruct (documents rag); [congruence | simpl; lia] | ].
  split; [exact Hm | ]. exists ix. auto.
Qed.

(** X22. Start-up fails in a fixed order: without an API key it raises
    [ValueError] whatever the files are, with a key and no dataset file
    [FileNotFoundError], with files that yield no entry [RuntimeError]. When
    it returns a system, the system is loaded and its index covers the stored
    entries, so that the handlers find it ready. *)
Theorem initialize_rag_system_outcomes (api_key : option string)
    (dataset_files : list string) :
  let start := initialize_rag_system encode py_str read_file json_loads
                 api_key dataset_files in
  let no_key := match api_key with
                | None => true
                | Some key => is_empty key
                end in
  (no_key = true -> start = Throw ValueError) /\
  (no_key = false -> dataset_files = [] -> start = Throw FileNotFoundError) /\
  (no_key = false -> dataset_files <> [] ->
   fst (load_files py_str read_file json_loads dataset_files [] []) = [] ->
   start = Throw RuntimeError) /\
  (forall rag, start = Return rag ->
     reachable encode py_str read_file json_loads rag /\
     loaded rag = true /\
     index_covers encode rag /\
     not_ready (Some rag) = false).
Proof.
  intros start no_key. unfold start, initialize_rag_system.
  split; [ | split; [ | split]].
  - unfold no_key. destruct api_key as [key|]; [ | reflexivity].
    now intros ->.
  - unfold no_key. destruct api_key as [key|]; [ | discriminate].
    now intros -> ->.
  - unfold no_key. destruct api_key as [key|]; [ | discriminate].
    intros -> Hne Hnone. destruct dataset_files as [|f fs]; [congruence | ].
    pose proof (load_datasets_cases encode py_str read_file json_loads init
                  (f :: fs)) as H. cbv zeta in H.
    destruct H as [[_ E] | (Hsome & _)]; [now rewrite E | contradiction].
  - intros rag. destruct api_key as [key|]; [ | discriminate].
    destruct (is_empty key); [discriminate | ].
    destruct dataset_files as [|f fs]; [discriminate | ].
    pose proof (load_datasets_cases encode py_str read_file json_loads init
                  (f :: fs)) as H. cbv zeta in H.
    pose proof (reach_load encode py_str read_file json_loads init (f :: fs)
                  (reach_init _ _ _ _)) as Hreach.
    destruct (load_datasets encode py_str read_file json_loads init (f :: fs))
      as [success rag'] eqn:E. cbn [fst snd] in *.
    destruct H as [[_ E'] | (_ & Hok & _ & _ & Hl & Hc)].
    + injection E' as -> _. discriminate.
    + rewrite Hok. intros [= <-]. cbn [not_ready]. rewrite Hl. auto.
Qed.
End Startup.

End Properties.

(** * Runs on the small installation

    Concrete runs of the definitions, and one instance of each property.
    [str.lower] is [Demo.lower] here: the texts are ASCII texts, or white
    space. *)

Example expand_vomit :
  expand_query Demo.lower "My dog Vomit twice"
  = "My dog Vomit twice my dog vomiting twice my dog throwing up twice".
Proof. reflexivity. Qed.

Example expand_vomiting :
  expand_query Demo.lower "vomiting" = "vomiting throwing uping".
Proof. reflexivity. Qed.

Example expand_cap :
  expand_query Demo.lower "pee and poop"
  = "pee and poop urinate and poop urine and poop".
Proof. reflexivity. Qed.

Example detect_bleeding :
  detect_emergency Demo.lower "My dog is bleeding heavily" = true.
Proof. reflexivity. Qed.

Example detect_tired :
  detect_emergency Demo.lower "My dog seems a bit tired" = false.
Proof. reflexivity. Qed.

Example match_greedy : json_match "a{b}c}d{" = Some "{b}c}".
Proof. reflexivity. Qed.

Example match_none : json_match "}{" = None.
Proof. reflexivity. Qed.

Example loads_object :
  Json.loads (Demo.dq "{'a': [1, -2.5e1, true, null, {}], 'b': 'x', 'a': 0}")
  = Some (VDict [("a", VInt 0); ("b", VStr "x")]).
Proof. reflexivity. Qed.

Example loads_trailing_comma : Json.loads "[1, 2,]" = None.
Proof. reflexivity. Qed.

Example category_digestive : category_of Demo.digestive = "digestive".
Proof. reflexivity. Qed.

(** Characters are counted, not bytes: nine accented letters are too short a
    query, six hundred of them are not too long. *)
Example validate_counts_characters :
  validate_pet_details Demo.lower
    (VDict [ ("name", VStr "Bruno"); ("species", VStr "Dog");
             ("query", VStr (Sample.times 9 Sample.e_acute)) ])
  = Return (false, "Query must be at least 10 characters long") /\
  validate_pet_details Demo.lower
    (VDict [ ("name", VStr "Bruno"); ("species", VStr "Dog");
             ("query", VStr (Sample.times 600 Sample.e_acute)) ])
  = Return (true, EmptyString).
Proof. split; vm_compute; reflexivity. Qed.

(** A name of no-break spaces is blank. *)
Example validate_blank_name :
  validate_pet_details Demo.lower
    (VDict [ ("name", VStr (Sample.nbsp ++ Sample.nbsp));
             ("species", VStr "Dog");
             ("query", VStr "my dog has been vomiting since morning") ])
  = Return (false, "Missing required field: name").
Proof. vm_compute. reflexivity. Qed.

Example strip_no_break_space :
  strip (Sample.nbsp ++ " a" ++ Sample.nbsp ++ "b " ++ Sample.nbsp)
  = ("a" ++ Sample.nbsp ++ "b")%string.
Proof. reflexivity. Qed.

(** The boundary is unreachable: the answer comes from the best match. *)
Example run_unreachable :
  response_field "confidence" (Demo.run Demo.loaded_state (Raise BoundaryError))
  = Some (VStr "medium") /\
  response_field "urgency_level" (Demo.run Demo.loaded_state (Raise BoundaryError))
  = Some (VStr "emergency") /\
  response_field "service_recommendation"
    (Demo.run Demo.loaded_state (Raise BoundaryError))
  = Some (VStr "in_clinic") /\
  response_field "query_metadata" (Demo.run Demo.loaded_state (Raise BoundaryError))
  = None.
Proof. repeat split; vm_compute; reflexivity. Qed.

(** The reply has braces around something that is not JSON: the decoder
    raises inside the [try], and the fallback comes back bare as well. *)
Example run_undecodable :
  response_field "confidence" (Demo.run Demo.loaded_state (Ok "{oops}"))
  = Some (VStr "medium") /\
  response_field "query_metadata" (Demo.run Demo.loaded_state (Ok "{oops}"))
  = None.
Proof. repeat split; vm_compute; reflexivity. Qed.

(** The reply has no braces: the fallback gets its metadata. *)
Example run_no_json :
  response_field "query_metadata" (Demo.run Demo.loaded_state (Ok "Sorry."))
  = Some (VDict [ ("timestamp", VStr Demo.now);
                  ("num_matches", VInt 3);
                  ("is_emergency", VBool false);
                  ("top_match_score", VFloat (FFinite (3 # 2))) ]).
Proof. vm_compute. reflexivity. Qed.

Lemma expand_query_contract_witness :
  let query := (" " ++ Sample.nbsp ++ " ")%string in
  PyStr.white query = true /\ expand_query Demo.lower query = query.
Proof.
  intros query. split; [reflexivity | ].
  apply (proj2 (proj2 (expand_query_contract Demo.lower query)));
    reflexivity.
Defined.

Lemma species_filter_correct_witness :
  let hairball :=
    {| sr_score := 1;
       sr_metadata := [("symptom", VStr "Hairball");
                       ("description", VStr "Cat vomits hair");
                       ("severity", VStr "routine");
                       ("species", VStr "cats");
                       ("category", VStr "digestive")];
       sr_text := "Hairball. Cat vomits hair" |} in
  search Demo.lower Demo.encode Demo.loaded_state Demo.query (Some "CATS") TOP_K
  = Ok [hairball] /\
  exists s,
    dict_lookup "species" (sr_metadata hairball) = Some (VStr s) /\
    Demo.lower s = Demo.lower "CATS".
Proof.
  intros hairball.
  assert (H : search Demo.lower Demo.encode Demo.loaded_state Demo.query (Some "CATS")
                TOP_K = Ok [hairball]) by (vm_compute; reflexivity).
  split; [exact H | ].
  apply (species_filter_correct Demo.lower Demo.encode Demo.loaded_state Demo.query
           "CATS" TOP_K [hairball]).
  - discriminate.
  - discriminate.
  - exact H.
  - left. reflexivity.
Defined.

Lemma threshold_property_witness :
  let hairball :=
    {| sr_score := 1;
       sr_metadata := [("symptom", VStr "Hairball");
                       ("description", VStr "Cat vomits hair");
                       ("severity", VStr "routine");
                       ("species", VStr "cats");
                       ("category", VStr "digestive")];
       sr_text := "Hairball. Cat vomits hair" |} in
  search Demo.lower Demo.encode Demo.loaded_state Demo.query (Some "cats") TOP_K
  = Ok [hairball] /\
  exists raw idx meta boost,
    candidate Demo.lower Demo.encode Demo.loaded_state Demo.query TOP_K (raw, idx) /\
    (MIN_SIMILARITY <= raw)%Q /\
    nth_error (metadata Demo.loaded_state) idx = Some meta /\
    boost_of (dict_get "severity" (VStr "routine") meta) = Ok boost /\
    sr_metadata hairball = meta /\
    sr_score hairball = raw * boost.
Proof.
  intros hairball.
  assert (H : search Demo.lower Demo.encode Demo.loaded_state Demo.query (Some "cats")
                TOP_K = Ok [hairball]) by (vm_compute; reflexivity).
  split; [exact H | ].
  apply (proj1 (threshold_property Demo.lower Demo.encode Demo.loaded_state Demo.query
                  (Some "cats") TOP_K [hairball] H) hairball).
  left. reflexivity.
Defined.

Lemma severity_ordering_witness :
  let m1 := [("symptom", VStr "Vomiting blood");
             ("description", VStr "Vomit with fresh blood");
             ("severity", VStr "emergency"); ("species", VStr "Dogs");
             ("service_recommendation", VStr "in_clinic");
             ("category", VStr "digestive")] in
  let m2 := [("symptom", VStr "Vomiting");
             ("description", VStr "Repeated vomiting after meals");
             ("severity", VStr "routine"); ("species", VStr "dogs");
             ("service_recommendation", VStr "video_consult");
             ("category", VStr "digestive")] in
  let r1 := {| sr_score := 1 * (3 # 2); sr_metadata := m1;
               sr_text := "Vomiting blood. Vomit with fresh blood" |} in
  let r2 := {| sr_score := 1 * 1; sr_metadata := m2;
               sr_text := "Vomiting. Repeated vomiting after meals" |} in
  let out := [ {| sr_score := 3 # 2; sr_metadata := m1;
                  sr_text := "Vomiting blood. Vomit with fresh blood" |};
               {| sr_score := 1; sr_metadata := m2;
                  sr_text := "Vomiting. Repeated vomiting after meals" |};
               {| sr_score := 90 # 125;
                  sr_metadata := [("symptom", VStr "Nausea");
                                  ("description", VStr "Drooling and lip licking");
                                  ("severity", VStr "urgent");
                                  ("species", VStr "dogs");
                                  ("category", VStr "digestive")];
                  sr_text := "Nausea. Drooling and lip licking" |} ] in
  (sr_score r2 < sr_score r1)%Q /\
  (exists results,
      out = slice_to TOP_K (sort_desc sr_score results) /\
      In r1 results /\ In r2 results) /\
  (forall j, nth_error out j = Some r2 ->
     exists i, (i < j)%nat /\ nth_error out i = Some r1).
Proof.
  intros m1 m2 r1 r2 out.
  apply (severity_ordering Demo.lower Demo.encode Demo.loaded_state Demo.query
           (Some "dogs") TOP_K out 1 1 0 m1 m2).
  - reflexivity.
  - vm_compute. reflexivity.
  - eexists _, _. split; [reflexivity | split; [vm_compute; reflexivity | ]].
    right. left. reflexivity.
  - eexists _, _. split; [reflexivity | split; [vm_compute; reflexivity | ]].
    left. reflexivity.
  - vm_compute. discriminate.
  - reflexivity.
  - reflexivity.
  - reflexivity.
  - reflexivity.
  - reflexivity.
  - reflexivity.
  - reflexivity.
  - reflexivity.
Defined.

Lemma fallback_from_top_match_witness :
  let first :=
    {| sr_score := 6 # 5;
       sr_metadata := [("symptom", VStr "vomiting"); ("severity", VStr "urgent");
                       ("species", VStr "dogs");
                       ("service_recommendation", VStr "in_clinic")];
       sr_text := "vomiting. " |} in
  let r := generate_response Demo.lower Demo.py_str Json.loads Demo.pet
             "my dog is throwing up a lot" [first] Demo.now
             (Raise BoundaryError) in
  dict_lookup "confidence" r = Some (VStr "medium") /\
  dict_lookup "urgency_level" r = Some (VStr "urgent") /\
  dict_lookup "service_recommendation" r = Some (VStr "in_clinic").
Proof.
  intros first r.
  apply (fallback_from_top_match Demo.lower Demo.py_str Json.loads Demo.pet
           "my dog is throwing up a lot" first [] Demo.now (Raise BoundaryError)).
  reflexivity.
Defined.

Lemma no_match_fallback_witness :
  let r := generate_response Demo.lower Demo.py_str Json.loads Demo.pet
             "my dog is bleeding" [] Demo.now (Ok "I cannot help") in
  dict_lookup "confidence" r = Some (VStr "low") /\
  dict_lookup "urgency_level" r = Some (VStr "urgent") /\
  dict_lookup "service_recommendation" r = Some (VStr "in_clinic").
Proof.
  intros r.
  destruct (no_match_fallback Demo.lower Demo.py_str Json.loads Demo.pet
              "my dog is bleeding" Demo.now (Ok "I cannot help")
              ltac:(reflexivity)) as (_ & Hc & Hu & Hs & _).
  exact (conj Hc (conj Hu Hs)).
Defined.

(** C2, as stated, fails: the generative model answers with an empty JSON
    object, and the response is that object with [query_metadata] set; it
    has no [urgency_level] and no other content key. *)
Lemma fallback_totality_counterexample :
  is_str (dict_get "species" (VStr EmptyString) Demo.pet) = true /\
  Demo.run Demo.loaded_state (Ok "{}")
  = Ok [ ("query_metadata",
           VDict [ ("timestamp", VStr Demo.now);
                   ("num_matches", VInt 3);
                   ("is_emergency", VBool false);
                   ("top_match_score", VFloat (FFinite (3 # 2))) ]) ] /\
  response_field "urgency_level" (Demo.run Demo.loaded_state (Ok "{}")) = None /\
  response_field "summary" (Demo.run Demo.loaded_state (Ok "{}")) = None.
Proof.
  repeat split; vm_compute; reflexivity.
Qed.

Lemma demo_encode_dim (s : string) : length (Demo.encode s) = 2%nat.
Proof.
  unfold Demo.encode.
  destruct (PyStr.contains "vomit" _); [reflexivity | ].
  destruct (PyStr.contains "nausea" _); reflexivity.
Qed.

Lemma demo_covers : loaded Demo.loaded_state = true ->
                    index_covers Demo.encode Demo.loaded_state.
Proof.
  intros _. eexists. repeat split; try (vm_compute; reflexivity).
  discriminate.
Qed.

Lemma process_query_total_witness :
  exists r,
    Demo.run Demo.loaded_state (Ok "Sorry, I cannot answer that.") = Ok r /\
    has_content_keys r = true /\
    exists level,
      dict_lookup "urgency_level" r = Some level /\ is_level level = true.
Proof.
  apply (process_query_total Demo.lower Demo.encode Demo.py_str Json.loads 2
           Demo.loaded_state Demo.pet Demo.query Demo.now
           (Ok "Sorry, I cannot answer that.")).
  - exact demo_encode_dim.
  - exact demo_covers.
  - vm_compute. reflexivity.
  - vm_compute. reflexivity.
Defined.

(** C3, as stated, fails: nothing is loaded, the generative model answers
    with a JSON object, and [process_query] returns that object, not the
    template; its confidence is the model's. *)
Lemma empty_corpus_counterexample :
  loaded init = false /\
  is_str (dict_get "species" (VStr EmptyString) Demo.pet) = true /\
  Demo.run init (Ok (Demo.dq "{'confidence': 'high'}"))
  = Ok [ ("confidence", VStr "high");
         ("query_metadata",
           VDict [ ("timestamp", VStr Demo.now);
                   ("num_matches", VInt 0);
                   ("is_emergency", VBool false);
                   ("top_match_score", VInt 0) ]) ] /\
  response_field "confidence"
    (Demo.run init (Ok (Demo.dq "{'confidence': 'high'}")))
  <> Some (VStr "low").
Proof.
  repeat split; try (vm_compute; reflexivity).
  vm_compute. discriminate.
Qed.

Lemma empty_corpus_witness :
  (forall species top_k,
      search Demo.lower Demo.encode init Demo.query species top_k = Ok []) /\
  response_field "confidence" (Demo.run init (Raise BoundaryError))
  = Some (VStr "low").
Proof.
  destruct (empty_corpus Demo.lower Demo.encode Demo.py_str Json.loads init Demo.pet
              Demo.query Demo.now (Raise BoundaryError) eq_refl)
    as [Hs Hp].
  split; [exact Hs | ].
  destruct (Hp eq_refl) as (r & Hr & _ & Hc).
  unfold Demo.run. rewrite Hr. exact Hc.
Defined.

Lemma load_datasets_atomic_witness :
  Demo.load init ["datasets/master_missing_dataset.json"] = (false, init) /\
  (loaded Demo.loaded_state = true ->
   index_covers Demo.encode Demo.loaded_state).
Proof.
  split.
  - apply (load_datasets_atomic Demo.encode Demo.py_str Demo.read_file
             Json.loads init ["datasets/master_missing_dataset.json"]
             (reach_init _ _ _ _)).
    reflexivity.
  - apply (load_datasets_atomic Demo.encode Demo.py_str Demo.read_file
             Json.loads init [Demo.digestive] (reach_init _ _ _ _)).
Defined.

Lemma detect_emergency_stable_witness :
  detect_emergency Demo.lower "she is BLEEDING" = true /\
  detect_emergency Demo.lower
    ("Help! " ++ "she is BLEEDING" ++ " since noon") = true.
Proof.
  split; [reflexivity | ].
  apply (proj2 (detect_emergency_stable Demo.lower
                  "she is BLEEDING" "Help! " " since noon"
                  (fun s _ => eq_refl) eq_refl eq_refl eq_refl)).
  reflexivity.
Defined.

Lemma expand_query_keeps_query_witness :
  expand_query Demo.lower "My cat sneezes a lot" = "My cat sneezes a lot".
Proof.
  apply (proj2 (expand_query_keeps_query Demo.lower "My cat sneezes a lot")).
  intros term synonyms H. simpl in H.
  repeat (destruct H as [H | H]; [inversion H; subst; reflexivity | ]).
  destruct H.
Defined.

Lemma search_dogs :
  search Demo.lower Demo.encode Demo.loaded_state Demo.query (Some "dogs") TOP_K
  = Ok Sample.dogs.
Proof. vm_compute. reflexivity. Qed.

Lemma search_at_most_top_k_witness :
  search Demo.lower Demo.encode Demo.loaded_state Demo.query None 2
  = Ok [Sample.blood; Sample.vomiting] /\
  (Z.of_nat (length [Sample.blood; Sample.vomiting]) <= Z.max 0 2)%Z.
Proof.
  assert (H : search Demo.lower Demo.encode Demo.loaded_state Demo.query None 2
              = Ok [Sample.blood; Sample.vomiting]) by (vm_compute; reflexivity).
  split; [exact H | ].
  exact (search_at_most_top_k Demo.lower Demo.encode Demo.loaded_state Demo.query None 2
           _ H).
Defined.

Lemma search_best_first_witness :
  (sr_score Sample.nausea <= sr_score Sample.blood)%Q.
Proof.
  apply (search_best_first Demo.lower Demo.encode Demo.loaded_state Demo.query
           (Some "dogs") TOP_K Sample.dogs search_dogs 0 2);
    [lia | reflexivity | reflexivity].
Defined.

Lemma search_result_position_witness :
  exists idx,
    nth_error (metadata Demo.loaded_state) idx = Some (sr_metadata Sample.nausea) /\
    nth_error (documents Demo.loaded_state) idx = Some (sr_text Sample.nausea).
Proof.
  apply (search_result_position Demo.lower Demo.encode Demo.loaded_state Demo.query
           (Some "dogs") TOP_K Sample.dogs Sample.nausea search_dogs).
  right. right. left. reflexivity.
Defined.

Lemma search_score_range_witness :
  exists raw idx,
    candidate Demo.lower Demo.encode Demo.loaded_state Demo.query TOP_K (raw, idx) /\
    (raw <= sr_score Sample.nausea)%Q /\
    (sr_score Sample.nausea <= raw * (3 # 2))%Q /\
    (MIN_SIMILARITY <= sr_score Sample.nausea)%Q.
Proof.
  apply (search_score_range Demo.lower Demo.encode Demo.loaded_state Demo.query
           (Some "dogs") TOP_K Sample.dogs Sample.nausea search_dogs).
  right. right. left. reflexivity.
Defined.

Lemma generate_response_ignores_wrapping_witness :
  generate_response Demo.lower Demo.py_str Json.loads Demo.pet Demo.query Sample.dogs
    Demo.now (Ok "Here is my answer: {} I hope it helps.")
  = generate_response Demo.lower Demo.py_str Json.loads Demo.pet Demo.query Sample.dogs
      Demo.now (Ok "{}").
Proof.
  exact (generate_response_ignores_wrapping Demo.lower Demo.py_str Json.loads Demo.pet
           Demo.query Sample.dogs Demo.now
           "Here is my answer: " EmptyString " I hope it helps."
           eq_refl eq_refl).
Defined.

Lemma decoded_reply_passes_through_witness :
  let reply := Ok (Demo.dq "{'summary': 'Rest', 'query_metadata': 'mine'}") in
  let r := generate_response Demo.lower Demo.py_str Json.loads Demo.pet Demo.query
             Sample.dogs Demo.now reply in
  dict_lookup "query_metadata" r
  = Some (query_metadata Demo.now Sample.dogs false) /\
  dict_lookup "summary" r = Some (VStr "Rest").
Proof.
  intros reply r.
  destruct (decoded_reply_passes_through Demo.lower Demo.py_str Json.loads Demo.pet
              Demo.query Sample.dogs Demo.now reply
              [("summary", VStr "Rest"); ("query_metadata", VStr "mine")]
              eq_refl) as [Hm Hk].
  split; [exact Hm | ].
  fold r in Hk. rewrite (Hk "summary"); [reflexivity | discriminate].
Defined.

Lemma process_query_metadata_witness :
  exists species matches,
    search Demo.lower Demo.encode Demo.loaded_state Demo.query species TOP_K = Ok matches /\
    (length matches <= 10)%nat /\
    VDict [ ("timestamp", VStr Demo.now); ("num_matches", VInt 3);
            ("is_emergency", VBool false);
            ("top_match_score", VFloat (FFinite (3 # 2))) ]
    = query_metadata Demo.now matches (detect_emergency Demo.lower Demo.query).
Proof.
  apply (process_query_metadata Demo.lower Demo.encode Demo.py_str Json.loads
           Demo.loaded_state Demo.pet Demo.query Demo.now (Ok "{}")
           [ ("query_metadata",
               VDict [ ("timestamp", VStr Demo.now); ("num_matches", VInt 3);
                       ("is_emergency", VBool false);
                       ("top_match_score", VFloat (FFinite (3 # 2))) ]) ]).
  - vm_compute. reflexivity.
  - reflexivity.
Defined.

Lemma accepted_request_reaches_core_witness :
  let d := [ ("name", VStr "Bruno"); ("species", VStr "  Cat (and a DOG) ");
             ("query", VStr "   itching   ") ] in
  validate_pet_details Demo.lower (VDict d) = Return (true, EmptyString) /\
  exists species query,
    dict_lookup "species" d = Some (VStr species) /\
    dict_lookup "query" d = Some (VStr query) /\
    (species_filter (Demo.lower (strip species)) = Some "dogs" \/
     species_filter (Demo.lower (strip species)) = Some "cats") /\
    is_empty (strip query) = false /\
    (PyStr.len (strip query) <= 1000)%nat.
Proof.
  intros d.
  assert (H : validate_pet_details Demo.lower (VDict d)
              = Return (true, EmptyString)) by reflexivity.
  split; [exact H | ].
  apply (accepted_request_reaches_core Demo.lower d EmptyString);
    [ | exact H].
  intros species E. injection E as <-. reflexivity.
Defined.

Lemma demo_reachable :
  reachable Demo.encode Demo.py_str Demo.read_file Json.loads Demo.loaded_state.
Proof.
  exact (reach_load Demo.encode Demo.py_str Demo.read_file Json.loads init
           [Demo.digestive] (reach_init _ _ _ _)).
Qed.

Lemma load_datasets_skips_unusable_witness :
  Json.loads Sample.skin_json
  = Some (VList [VDict [("symptom", VStr "Itching");
                        ("description", VStr "Scratches a lot")]]) /\
  load_datasets Demo.encode Demo.py_str Sample.read_file Json.loads init
    [Sample.skin; Demo.digestive]
  = load_datasets Demo.encode Demo.py_str Sample.read_file Json.loads init
      [Demo.digestive].
Proof.
  split; [reflexivity | ].
  exact (load_datasets_skips_unusable Demo.encode Demo.py_str Sample.read_file
           Json.loads init [] [Demo.digestive] Sample.skin eq_refl).
Defined.

Lemma load_entries_stops_witness :
  load_entries Demo.py_str "skin"
    [ VDict [("symptom", VStr "Itching")]; VStr "oops";
      VDict [("symptom", VStr "Rash")] ] [] []
  = load_entries Demo.py_str "skin" [ VDict [("symptom", VStr "Itching")] ] [] [].
Proof.
  exact (load_entries_stops Demo.py_str "skin"
           [ VDict [("symptom", VStr "Itching")] ]
           [ VDict [("symptom", VStr "Rash")] ] (VStr "oops") [] [] eq_refl).
Defined.

Lemma corpus_positions_agree_witness :
  sr_text Sample.nausea = rendered Demo.py_str (sr_metadata Sample.nausea) /\
  has_category (sr_metadata Sample.nausea).
Proof.
  apply (corpus_positions_agree Demo.encode Demo.py_str Demo.read_file
           Json.loads Demo.loaded_state 2 _ _ demo_reachable);
    reflexivity.
Defined.

Lemma search_result_rendered_witness :
  sr_text Sample.blood = rendered Demo.py_str (sr_metadata Sample.blood) /\
  has_category (sr_metadata Sample.blood).
Proof.
  apply (search_result_rendered Demo.lower Demo.encode Demo.py_str Demo.read_file
           Json.loads Demo.loaded_state Demo.query (Some "dogs") TOP_K
           Sample.dogs Sample.blood demo_reachable search_dogs).
  left. reflexivity.
Defined.

Lemma query_endpoint_no_internal_error_witness :
  snd (query_endpoint Demo.lower Demo.encode Demo.py_str Json.loads Sample.exn_text
         (Some Demo.loaded_state) (Return (VDict Sample.request)) Demo.now
         (Raise BoundaryError)) = 200%Z.
Proof.
  destruct (query_endpoint_no_internal_error Demo.lower Demo.encode Demo.py_str Json.loads
              Sample.exn_text 2 Demo.loaded_state Sample.request Demo.now
              (Raise BoundaryError) demo_encode_dim eq_refl
              (demo_covers eq_refl) eq_refl eq_refl)
    as [H | (pd & query & response & _ & _ & _ & H)].
  - vm_compute in H. discriminate H.
  - rewrite H. reflexivity.
Defined.

Lemma query_endpoint_non_string_name_witness :
  query_endpoint Demo.lower Demo.encode Demo.py_str Json.loads Sample.exn_text
    (Some Demo.loaded_state)
    (Return (VDict [("name", VInt 42); ("species", VStr "Dog")]))
    Demo.now (Raise BoundaryError)
  = ([ ("success", VBool false);
       ("error", VStr "Internal server error");
       ("message", VStr "AttributeError") ], 500%Z).
Proof.
  exact (query_endpoint_non_string_name Demo.lower Demo.encode Demo.py_str Json.loads
           Sample.exn_text Demo.loaded_state
           [("name", VInt 42); ("species", VStr "Dog")] (VInt 42)
           Demo.now (Raise BoundaryError) eq_refl eq_refl eq_refl).
Defined.

Lemma dataset_info_counts_witness :
  dict_lookup "data" (fst (dataset_info (Some Demo.loaded_state)))
  = Some (VDict [ ("total_entries", VInt 5);
                  ("embedding_model", VStr "all-MiniLM-L6-v2");
                  ("llm_model", VStr "gemini-2.0-flash") ]) /\
  (1 <= length (documents Demo.loaded_state))%nat.
Proof.
  destruct (dataset_info_counts Demo.encode Demo.py_str Demo.read_file
              Json.loads Demo.loaded_state demo_reachable eq_refl)
    as (H & H1 & _).
  split; [rewrite H; reflexivity | exact H1].
Defined.

Lemma json_match_spec_witness :
  json_match "Result: {a}{b} done" = Some "{a}{b}".
Proof.
  apply (proj2 (json_match_spec "Result: {a}{b} done" "{a}{b}")).
  exists "Result: ", "a}{b", " done". repeat split; reflexivity.
Defined.

Lemma load_files_concat_witness :
  fst (load_files Demo.py_str Sample.read_file Json.loads
         ([Demo.digestive] ++ [Demo.digestive]) [] [])
  = (documents Demo.loaded_state ++ documents Demo.loaded_state)%list.
Proof.
  rewrite (proj1 (load_files_concat Demo.encode Demo.py_str Sample.read_file
                    Json.loads init [Demo.digestive] [Demo.digestive])).
  reflexivity.
Defined.

Lemma validate_accepts_witness :
  validate_pet_details Demo.lower (VDict Sample.request) = Return (true, EmptyString).
Proof.
  apply (proj2 (validate_accepts Demo.lower (VDict Sample.request) EmptyString)).
  split; [reflexivity | ].
  exists Sample.request, " Bruno ", "Dog",
    "my dog has been vomiting since morning".
  repeat split; try reflexivity; simpl; lia.
Defined.

Lemma handlers_agree_on_readiness_witness :
  query_endpoint Demo.lower Demo.encode Demo.py_str Json.loads Sample.exn_text
    (Some init) (Throw RequestError) Demo.now (Raise BoundaryError)
  = (error_body "RAG system not initialized", 503%Z) /\
  snd (dataset_info (Some Demo.loaded_state)) = 200%Z.
Proof.
  split.
  - apply (proj1 (handlers_agree_on_readiness Demo.lower Demo.encode Demo.py_str
                    Json.loads Sample.exn_text (Some init)
                    (Throw RequestError) Demo.now (Raise BoundaryError))).
    reflexivity.
  - apply (proj2 (handlers_agree_on_readiness Demo.lower Demo.encode Demo.py_str
                    Json.loads Sample.exn_text (Some Demo.loaded_state)
                    (Throw RequestError) Demo.now (Raise BoundaryError))).
    reflexivity.
Defined.

Lemma initialize_rag_system_outcomes_witness :
  initialize_rag_system Demo.encode Demo.py_str Sample.read_file Json.loads
    (Some "key") [Sample.skin]
  = Throw RuntimeError /\
  initialize_rag_system Demo.encode Demo.py_str Sample.read_file Json.loads
    None [Demo.digestive]
  = Throw ValueError.
Proof.
  pose proof (initialize_rag_system_outcomes Demo.encode Demo.py_str
                Sample.read_file Json.loads (Some "key") [Sample.skin]) as H1.
  pose proof (initialize_rag_system_outcomes Demo.encode Demo.py_str
                Sample.read_file Json.loads None [Demo.digestive]) as H2.
  cbv zeta in H1, H2. split.
  - apply H1; [reflexivity | discriminate | reflexivity].
  - apply H2. reflexivity.
Defined.
